(** * sub_adjust: timing and section renumbering of SRT and SMI subtitles

    A shallow embedding of [sub_adjust.py] and the proofs of its
    specification.  The three functions with logic in them, [add_time],
    [process_smi] and [process_srt], are transcribed statement by statement;
    the Python builtins and the three regular expressions they rely on are
    modelled first.  The entry point [main] follows, over the lines read
    and up to the call that writes.

    Modelling conventions.
    - A Python [str] is a [string], its character classes read as Python 3
      reads them; a character is a code point below 256 (the Latin-1 part
      of Unicode), which already contains the characters on which
      [str.isdigit], [str.strip] and [int] disagree.
    - A Python [int] is a [Z]; the interpreter's optional cap on the length
      of a decimal literal is not modelled.
    - A raised exception is the [Raise] branch of [result]. *)

From Stdlib Require Import ZArith Lia Bool List Ascii String.
Import ListNotations.

Open Scope string_scope.
Open Scope Z_scope.

(* ------------------------------------------------------------------ *)
(** ** Exceptions *)

Inductive exn : Type := ValueError.

Inductive result (A : Type) : Type :=
| Ok (a : A)
| Raise (e : exn).

Arguments Ok {A} a.
Arguments Raise {A} e.

Definition bind {A B : Type} (r : result A) (k : A -> result B) : result B :=
  match r with
  | Ok a => k a
  | Raise e => Raise e
  end.

Notation "x <- r ;; k" := (bind r (fun x => k))
  (at level 61, r at next level, right associativity).

Notation "' p <- r ;; k" := (bind r (fun x => match x with p => k end))
  (at level 61, p pattern, r at next level, right associativity).

(* ------------------------------------------------------------------ *)
(** ** Python builtins on [str] and [int] *)

Module Py.

(** Code point of a character and back. *)
Definition ord (c : ascii) : Z := Z.of_N (N_of_ascii c).
Definition chr (n : Z) : ascii := ascii_of_N (Z.to_N n).

Definition CR : ascii := chr 13.
Definition LF : ascii := chr 10.
Definition CRLF : string := String CR (String LF "").

(** [str.isspace] of one character: the set [str.strip] removes. *)
Definition isspace (c : ascii) : bool :=
  let n := ord c in
  ((9 <=? n) && (n <=? 13)) || ((28 <=? n) && (n <=? 32))
  || (n =? 133) || (n =? 160).

(** The white space [int] skips around a literal: the information
    separators 28..31 are not part of it. *)
Definition int_space (c : ascii) : bool :=
  let n := ord c in
  ((9 <=? n) && (n <=? 13)) || (n =? 32) || (n =? 133) || (n =? 160).

(** Decimal digits: what [\d] matches and what [int] reads. *)
Definition isdecimal (c : ascii) : bool :=
  let n := ord c in (48 <=? n) && (n <=? 57).

(** [str.isdigit] of one character: the decimal digits and the superscript
    digits U+00B2, U+00B3 and U+00B9. *)
Definition isdigit_char (c : ascii) : bool :=
  let n := ord c in
  isdecimal c || (n =? 178) || (n =? 179) || (n =? 185).

Definition digit_value (c : ascii) : Z := ord c - 48.
Definition digit_char (d : Z) : ascii := chr (48 + d).

Fixpoint str_all (p : ascii -> bool) (s : string) : bool :=
  match s with
  | EmptyString => true
  | String c r => p c && str_all p r
  end.

(** [s.isdigit()]: at least one character, and every one a digit. *)
Definition isdigit (s : string) : bool :=
  match s with
  | EmptyString => false
  | _ => str_all isdigit_char s
  end.

Fixpoint lstrip (p : ascii -> bool) (s : string) : string :=
  match s with
  | EmptyString => EmptyString
  | String c r => if p c then lstrip p r else s
  end.

Fixpoint rstrip (p : ascii -> bool) (s : string) : string :=
  match s with
  | EmptyString => EmptyString
  | String c r =>
      match rstrip p r with
      | EmptyString => if p c then EmptyString else String c EmptyString
      | r' => String c r'
      end
  end.

Definition strip_with (p : ascii -> bool) (s : string) : string :=
  rstrip p (lstrip p s).

(** [s.strip()] *)
Definition strip (s : string) : string := strip_with isspace s.

(** The digits of an [int] literal: decimal digits, single underscores
    allowed between two of them. *)
Fixpoint int_digits (acc : Z) (after_digit : bool) (s : string) : option Z :=
  match s with
  | EmptyString => if after_digit then Some acc else None
  | String c r =>
      if isdecimal c then int_digits (10 * acc + digit_value c) true r
      else if (Ascii.eqb c "_") && after_digit then int_digits acc false r
      else None
  end.

(** [int(s)]: white space around, an optional sign, digits; anything else
    raises [ValueError]. *)
Definition int (s : string) : result Z :=
  let t := strip_with int_space s in
  let '(negative, body) :=
    match t with
    | String c r =>
        if Ascii.eqb c "-" then (true, r)
        else if Ascii.eqb c "+" then (false, r)
        else (false, t)
    | EmptyString => (false, t)
    end in
  match int_digits 0 false body with
  | Some v => Ok (if negative then - v else v)
  | None => Raise ValueError
  end.

(** The number a text of decimal digits denotes, read from the left. *)
Fixpoint decimal_value (acc : Z) (s : string) : Z :=
  match s with
  | EmptyString => acc
  | String c r => decimal_value (10 * acc + digit_value c) r
  end.

(** Decimal digits of a non-negative number, most significant first. *)
Fixpoint decimal_digits (fuel : nat) (n : Z) : string :=
  match fuel with
  | O => EmptyString
  | S f =>
      (if n <? 10 then EmptyString else decimal_digits f (n / 10))
      ++ String (digit_char (n mod 10)) EmptyString
  end.

Definition str_nat (n : Z) : string :=
  decimal_digits (S (Z.to_nat (Z.log2 n))) n.

(** [str(n)] *)
Definition str (n : Z) : string :=
  if n <? 0 then String "-" (str_nat (- n)) else str_nat n.

Fixpoint repeat_char (c : ascii) (k : nat) : string :=
  match k with
  | O => EmptyString
  | S k' => String c (repeat_char c k')
  end.

(** [s.rjust(width, fill)] *)
Definition rjust (width : nat) (fill : ascii) (s : string) : string :=
  repeat_char fill (width - String.length s) ++ s.

(** [format(n, '0>w')]: the text of [n], filled on the left with the
    character 0 up to [w] characters; a sign is part of the text. *)
Definition format_zero_right (width : nat) (n : Z) : string :=
  rjust width "0" (str n).

(** Truth value of an [int] or [None]. *)
Definition truthy (v : option Z) : bool :=
  match v with
  | None => false
  | Some n => negb (n =? 0)
  end.

(** [divmod(a, b)]: floor division and its remainder. *)
Definition divmod (a b : Z) : Z * Z := (a / b, a mod b).

End Py.

(* ------------------------------------------------------------------ *)
(** ** The regular expressions of the program

    [re.match] anchors a pattern at the start of the text and says nothing
    about what follows the match.  The three patterns of the program are
    sequences of literals, fixed-width digit groups [(\d{n})] and one
    longest run of digits [(\d+)] followed by a character that is not a
    digit, so each piece can match in one way only and sequencing needs
    no backtracking. *)

Module Re.

(** Matching at the start of a text: the captured groups, in order, and
    the text left after the match. *)
Definition matcher : Type := string -> option (list string * string).

Fixpoint expect (l s : string) : option string :=
  match l with
  | EmptyString => Some s
  | String a l' =>
      match s with
      | String b s' => if Ascii.eqb a b then expect l' s' else None
      | EmptyString => None
      end
  end.

Fixpoint take_digits (n : nat) (s : string) : option (string * string) :=
  match n with
  | O => Some (EmptyString, s)
  | S k =>
      match s with
      | String c r =>
          if Py.isdecimal c then
            match take_digits k r with
            | Some (d, rest) => Some (String c d, rest)
            | None => None
            end
          else None
      | EmptyString => None
      end
  end.

Fixpoint span_digits (s : string) : string * string :=
  match s with
  | String c r =>
      if Py.isdecimal c then
        let '(d, rest) := span_digits r in (String c d, rest)
      else (EmptyString, s)
  | EmptyString => (EmptyString, EmptyString)
  end.

(** A literal piece of a pattern. *)
Definition lit (l : string) : matcher :=
  fun s => match expect l s with
           | Some rest => Some ([], rest)
           | None => None
           end.

(** [(\d{n})] *)
Definition digits (n : nat) : matcher :=
  fun s => match take_digits n s with
           | Some (d, rest) => Some ([d], rest)
           | None => None
           end.

(** [(\d+)] *)
Definition digits_plus : matcher :=
  fun s => match span_digits s with
           | (EmptyString, _) => None
           | (d, rest) => Some ([d], rest)
           end.

Definition seq (m1 m2 : matcher) : matcher :=
  fun s => match m1 s with
           | Some (g1, r1) =>
               match m2 r1 with
               | Some (g2, r2) => Some ((g1 ++ g2)%list, r2)
               | None => None
               end
           | None => None
           end.

(** [prog.match(s)]: the groups of the match, if the pattern matches. *)
Definition match_ (m : matcher) (s : string) : option (list string) :=
  match m s with
  | Some (g, _) => Some g
  | None => None
  end.

(** [result.group(k)], for k from 1. *)
Definition group (g : list string) (k : nat) : string :=
  nth (k - 1) g EmptyString.

End Re.

Infix ">>" := Re.seq (at level 55, right associativity).

(* ------------------------------------------------------------------ *)
(** ** The program *)

(** [SMI_PATTERN = '<SYNC Start=(\d+)>'] *)
Definition SMI_PATTERN : Re.matcher :=
  Re.lit "<SYNC Start=" >> Re.digits_plus >> Re.lit ">".

(** [SMI_TEMPLATE = '<SYNC Start={}>\r\n'], applied to a number. *)
Definition SMI_TEMPLATE (n : Z) : string :=
  "<SYNC Start=" ++ Py.str n ++ ">" ++ Py.CRLF.

(** [SRT_PATTERN = r'(\d{2}):(\d{2}):(\d{2}),(\d{3})'] *)
Definition SRT_PATTERN : Re.matcher :=
  Re.digits 2 >> Re.lit ":" >> Re.digits 2 >> Re.lit ":" >> Re.digits 2
  >> Re.lit "," >> Re.digits 3.

(** [SRT_TEMPLATE = '{:0>2}:{:0>2}:{:0>2},{:0>3}'], applied to four numbers. *)
Definition SRT_TEMPLATE (hours minutes seconds millis : Z) : string :=
  Py.format_zero_right 2 hours ++ ":" ++ Py.format_zero_right 2 minutes ++ ":"
  ++ Py.format_zero_right 2 seconds ++ "," ++ Py.format_zero_right 3 millis.

(** The arithmetic of [add_time]: the four fields before they are
    formatted. *)
Definition add_time_fields (hours minutes seconds millis milli_offset : Z)
  : Z * Z * Z * Z :=
  let millis :=
    millis + ((hours * 3600000) + (minutes * 60000) + (seconds * 1000)
              + milli_offset) in
  let '(hours, millis) := Py.divmod millis 3600000 in
  let '(minutes, millis) := Py.divmod millis 60000 in
  let '(seconds, millis) := Py.divmod millis 1000 in
  (hours, minutes, seconds, millis).

Definition add_time (hours minutes seconds millis milli_offset : Z) : string :=
  let '(hours, minutes, seconds, millis) :=
    add_time_fields hours minutes seconds millis milli_offset in
  SRT_TEMPLATE hours minutes seconds millis.

(** The body of the loop of [process_smi]: the line to append. *)
Definition smi_line (time_offset : Z) (line : string) : result string :=
  match Re.match_ SMI_PATTERN line with
  | Some result =>
      ms_s <- Py.int (Re.group result 1) ;;
      let new_time := ms_s + time_offset in
      Ok (SMI_TEMPLATE new_time)
  | None => Ok line
  end.

Fixpoint smi_loop (time_offset : Z) (modified contents : list string)
  : result (list string) :=
  match contents with
  | [] => Ok modified
  | line :: rest =>
      line' <- smi_line time_offset line ;;
      smi_loop time_offset (modified ++ [line'])%list rest
  end.

Definition process_smi (contents : list string) (time_offset : Z)
  : result (list string) :=
  smi_loop time_offset [] contents.

(** [time_prog] of [process_srt]: ['{pat} --> {pat}'] with [SRT_PATTERN]. *)
Definition time_prog : Re.matcher :=
  SRT_PATTERN >> Re.lit " --> " >> SRT_PATTERN.

(** The repair of a section number:
    [if section_previous and section_number != section_previous + 1]. *)
Definition repair (section_previous : option Z) (section_number : Z) : Z :=
  match section_previous with
  | Some previous =>
      if Py.truthy section_previous && negb (section_number =? previous + 1)
      then previous + 1
      else section_number
  | None => section_number
  end.

(** The body of the loop of [process_srt]: the line to append and the new
    value of [section_previous]. *)
Definition srt_line (section_offset time_offset : Z)
  (section_previous : option Z) (line : string)
  : result (string * option Z) :=
  match Re.match_ time_prog line with
  | Some result =>
      h_s <- Py.int (Re.group result 1) ;;
      m_s <- Py.int (Re.group result 2) ;;
      s_s <- Py.int (Re.group result 3) ;;
      ms_s <- Py.int (Re.group result 4) ;;
      h_e <- Py.int (Re.group result 5) ;;
      m_e <- Py.int (Re.group result 6) ;;
      s_e <- Py.int (Re.group result 7) ;;
      ms_e <- Py.int (Re.group result 8) ;;
      let new_start := add_time h_s m_s s_s ms_s time_offset in
      let new_end := add_time h_e m_e s_e ms_e time_offset in
      Ok (new_start ++ " --> " ++ new_end ++ Py.CRLF, section_previous)
  | None =>
      if Py.isdigit (Py.strip line) then
        section_number <- Py.int line ;;
        let section_number := section_number + section_offset in
        let section_number := repair section_previous section_number in
        Ok (Py.str section_number ++ Py.CRLF, Some section_number)
      else Ok (line, section_previous)
  end.

Fixpoint srt_loop (section_offset time_offset : Z)
  (section_previous : option Z) (modified contents : list string)
  : result (list string) :=
  match contents with
  | [] => Ok modified
  | line :: rest =>
      '(line', section_previous') <-
        srt_line section_offset time_offset section_previous line ;;
      srt_loop section_offset time_offset section_previous'
        (modified ++ [line'])%list rest
  end.

Definition process_srt (contents : list string)
  (section_offset time_offset : Z) : result (list string) :=
  srt_loop section_offset time_offset None [] contents.

(* ------------------------------------------------------------------ *)
(** ** Vocabulary of the specification *)

(** A timestamp flattened to milliseconds. *)
Definition total_millis (hours minutes seconds millis : Z) : Z :=
  hours * 3600000 + minutes * 60000 + seconds * 1000 + millis.

(** [shift] of the specification: [add_time] on a tuple, before
    formatting. *)
Definition shift (t : Z * Z * Z * Z) (milli_offset : Z) : Z * Z * Z * Z :=
  let '(hours, minutes, seconds, millis) := t in
  add_time_fields hours minutes seconds millis milli_offset.

(** Reading one timestamp back the way [process_srt] reads each half of a
    time range: [SRT_PATTERN] at the start of the text, [int] of each
    group. *)
Definition parse_timestamp (text : string) : option (Z * Z * Z * Z) :=
  match Re.match_ SRT_PATTERN text with
  | Some result =>
      match Py.int (Re.group result 1), Py.int (Re.group result 2),
            Py.int (Re.group result 3), Py.int (Re.group result 4) with
      | Ok h, Ok m, Ok s, Ok ms => Some (h, m, s, ms)
      | _, _, _, _ => None
      end
  | None => None
  end.

(** A text of one or more decimal digits: what a digit group of a pattern
    captures. *)
Definition numeral (d : string) : Prop :=
  d <> "" /\ Py.str_all Py.isdecimal d = true.

(** The fields a canonical timestamp [HH:MM:SS,mmm] can show. *)
Definition canonical (hours minutes seconds millis : Z) : Prop :=
  0 <= hours < 100 /\ 0 <= minutes < 60 /\ 0 <= seconds < 60
  /\ 0 <= millis < 1000.

(** The branch of the loop of [process_srt] a line takes. *)
Inductive line_class : Type :=
| TimeRange (groups : list string)
| SectionNumber (n : Z)
| Malformed
| Plain.

Definition classify (line : string) : line_class :=
  match Re.match_ time_prog line with
  | Some groups => TimeRange groups
  | None =>
      if Py.isdigit (Py.strip line) then
        match Py.int line with
        | Ok n => SectionNumber n
        | Raise _ => Malformed
        end
      else Plain
  end.

(** The numbers of the section lines of a text, in order. *)
Definition section_numbers (lines : list string) : list Z :=
  flat_map (fun line => match classify line with
                        | SectionNumber n => [n]
                        | _ => []
                        end) lines.

Fixpoint increasing (l : list Z) : bool :=
  match l with
  | a :: (b :: _) as r => (a <? b) && increasing r
  | _ => true
  end.

(** Every number is one more than the number before it; [previous] is the
    number before the first one, if any. *)
Fixpoint follows (previous : option Z) (l : list Z) : bool :=
  match l with
  | [] => true
  | n :: r =>
      match previous with
      | Some p => n =? p + 1
      | None => true
      end && follows (Some n) r
  end.

Definition consecutive (l : list Z) : bool := follows None l.

(** Every section line of the input comes out, at its place, as its own
    number. *)
Definition sections_unchanged (lines out : list string) : Prop :=
  forall i line n,
    nth_error lines i = Some line ->
    classify line = SectionNumber n ->
    nth_error out i = Some (Py.str n ++ Py.CRLF).

(** The lines [process_srt] writes. *)
Definition time_line (h m s ms h' m' s' ms' : Z) : string :=
  SRT_TEMPLATE h m s ms ++ " --> " ++ SRT_TEMPLATE h' m' s' ms' ++ Py.CRLF.

Definition section_line (n : Z) : string := Py.str n ++ Py.CRLF.

(** A well-formed SRT text: canonical time ranges, section lines numbered
    one after the other, and lines of neither kind. *)
Inductive well_formed : option Z -> list string -> Prop :=
| wf_end previous : well_formed previous []
| wf_time previous h m s ms h' m' s' ms' rest :
    canonical h m s ms -> canonical h' m' s' ms' ->
    well_formed previous rest ->
    well_formed previous (time_line h m s ms h' m' s' ms' :: rest)
| wf_section previous n rest :
    0 <= n -> (forall p, previous = Some p -> n = p + 1) ->
    well_formed (Some n) rest ->
    well_formed previous (section_line n :: rest)
| wf_plain previous line rest :
    classify line = Plain ->
    well_formed previous rest ->
    well_formed previous (line :: rest).

(** *** Sample texts *)

(** Section lines 1, 2, 5: increasing, with a gap. *)
Definition gap_lines : list string :=
  ["1" ++ Py.CRLF; "2" ++ Py.CRLF; "5" ++ Py.CRLF].

(** Section lines 7, 8, 9 around a caption, the last one zero-padded and
    without terminator. *)
Definition padded_lines : list string :=
  ["7" ++ Py.CRLF; "Hello world"; "8" ++ Py.CRLF; "0009"].

(** A small well-formed SRT text. *)
Definition sample_srt : list string :=
  [section_line 1; time_line 0 0 1 0 0 0 2 500; "Hello world" ++ Py.CRLF;
   Py.CRLF;
   section_line 2; time_line 0 0 3 0 1 59 59 999; "- Bye." ++ Py.CRLF].

(** An SMI text with two markers. *)
Definition sample_smi : list string :=
  ["<SAMI>" ++ Py.CRLF; "<SYNC Start=1000><P>Hello";
   "<SYNC Start=12a>"; "<SYNC Start=007>" ++ Py.CRLF; "</SAMI>"].

(** A line holding the superscript two, U+00B2, and a line holding 12 after
    the information separator U+001C. *)
Definition superscript_line : string := String (Py.chr 178) Py.CRLF.
Definition separator_line : string := String (Py.chr 28) ("12" ++ Py.CRLF).

(* ------------------------------------------------------------------ *)
(** ** The entry point

    [main] reads the input file, picks the SMI or the SRT rewriter by the
    extension of its name and writes the result.  The two file helpers are
    one call each: [read_file] is taken as the function from a path to the
    lines [readlines] returns there, if the file can be read, and
    [write_file] as the outcome [Written], the path and the lines it is
    called with.  The path functions are those of POSIX. *)

Module PyText.

(** [c.lower()] of one character: the capital letters of ASCII and of
    Latin-1 (U+00C0..U+00DE but the multiplication sign) move up by 32. *)
Definition lower_char (c : ascii) : ascii :=
  let n := Py.ord c in
  if ((65 <=? n) && (n <=? 90))
     || ((192 <=? n) && (n <=? 222) && negb (n =? 215))
  then Py.chr (n + 32)
  else c.

(** [s.lower()] *)
Fixpoint lower (s : string) : string :=
  match s with
  | EmptyString => EmptyString
  | String c r => String (lower_char c) (lower r)
  end.

(** [s.rfind(c)] for a character [c]: the last place of [c], or -1. *)
Fixpoint rfind (c : ascii) (s : string) : Z :=
  match s with
  | EmptyString => -1
  | String a r =>
      let i := rfind c r in
      if 0 <=? i then i + 1 else if Ascii.eqb a c then 0 else -1
  end.

(** [s[:k]] and [s[k:]] for [k] from 0 on. *)
Fixpoint take (k : nat) (s : string) : string :=
  match k, s with
  | S k', String c r => String c (take k' r)
  | _, _ => EmptyString
  end.

Fixpoint drop (k : nat) (s : string) : string :=
  match k, s with
  | S k', String _ r => drop k' r
  | _, _ => s
  end.

(** [s[i:j]] for [0 <= i]. *)
Definition slice (s : string) (i j : Z) : string :=
  take (Z.to_nat (j - i)) (drop (Z.to_nat i) s).

(** The truth value of a [str] or [None]: the empty text is false. *)
Definition truthy (v : option string) : bool :=
  match v with
  | None | Some EmptyString => false
  | Some _ => true
  end.

End PyText.

Module OsPath.

Definition is_dot (c : ascii) : bool := Ascii.eqb c ".".

(** [os.path.splitext(p)]: the extension starts at the last dot of the
    last component of the path, unless only dots stand before it there.
    The loop over [filenameIndex] is the scan of [p[sepIndex+1:dotIndex]]
    for a character that is not a dot. *)
Definition splitext (p : string) : string * string :=
  let sepIndex := PyText.rfind "/" p in
  let dotIndex := PyText.rfind "." p in
  if sepIndex <? dotIndex then
    if Py.str_all is_dot (PyText.slice p (sepIndex + 1) dotIndex)
    then (p, EmptyString)
    else (PyText.take (Z.to_nat dotIndex) p, PyText.drop (Z.to_nat dotIndex) p)
  else (p, EmptyString).

(** [os.path.basename(p)] *)
Definition basename (p : string) : string :=
  PyText.drop (Z.to_nat (PyText.rfind "/" p + 1)) p.

End OsPath.

(** The parsed command line, [ARGS]. *)
Record Args : Type := {
  input_file : string;
  output_file : option string;
  millis : Z;
  section : Z
}.

(** How a run of [main] ends. *)
Inductive outcome : Type :=
| Written (path : string) (contents : list string)
| Uncaught (e : exn)
| Unread.

Definition main (ARGS : Args) (read_file : string -> option (list string))
  : outcome :=
  match read_file (input_file ARGS) with
  | None => Unread
  | Some contents =>
      let '(filename, extension) := OsPath.splitext (input_file ARGS) in
      let contents :=
        if String.eqb (PyText.lower extension) ".smi"
        then process_smi contents (millis ARGS)
        else process_srt contents (section ARGS) (millis ARGS) in
      match contents with
      | Raise e => Uncaught e
      | Ok contents =>
          let output_file :=
            match output_file ARGS with
            | Some given =>
                if PyText.truthy (output_file ARGS) then given
                else filename ++ ".adjust" ++ extension
            | None => filename ++ ".adjust" ++ extension
            end in
          Written output_file contents
      end
  end.

(** *** Vocabulary of the further properties *)

(** The number of an SMI marker line, if the line is one. *)
Definition marker_value (line : string) : option Z :=
  match Re.match_ SMI_PATTERN line with
  | Some result =>
      match Py.int (Re.group result 1) with
      | Ok n => Some n
      | Raise _ => None
      end
  | None => None
  end.

(** A digit group of a given width. *)
Definition digit_field (width : nat) (d : string) : Prop :=
  String.length d = width /\ Py.str_all Py.isdecimal d = true.

(** The text of a timestamp with the given digit groups. *)
Definition stamp (hh mm ss mmm : string) : string :=
  hh ++ ":" ++ mm ++ ":" ++ ss ++ "," ++ mmm.

(** The characters other than a given one. *)
Definition other_than (c : ascii) : ascii -> bool :=
  fun a => negb (Ascii.eqb a c).

(** A text without dot and without slash. *)
Definition plain_name (s : string) : Prop :=
  Py.str_all (other_than ".") s = true /\ Py.str_all (other_than "/") s = true.

(** The path [main] writes to when none is given. *)
Definition default_output (input : string) : string :=
  fst (OsPath.splitext input) ++ ".adjust" ++ snd (OsPath.splitext input).

(** Does [main] run the SMI rewriter on this input? *)
Definition is_smi (input : string) : bool :=
  String.eqb (PyText.lower (snd (OsPath.splitext input))) ".smi".

(** The path [main] writes to: the one given when it is given and not
    empty, a default otherwise. *)
Definition chosen_output (ARGS : Args) (default : string) : string :=
  match output_file ARGS with
  | Some given => if PyText.truthy (output_file ARGS) then given else default
  | None => default
  end.

(** Sample command lines. *)
Definition srt_args : Args :=
  {| input_file := "films/a.b.SRT"; output_file := Some "";
     millis := 250; section := 0 |}.

Definition smi_args : Args :=
  {| input_file := "films/.hidden/a.SmI"; output_file := None;
     millis := 2000; section := 7 |}.

Definition dot_args : Args :=
  {| input_file := "subs/.smi"; output_file := None;
     millis := 2000; section := 7 |}.

Definition given_args : Args :=
  {| input_file := "a.srt"; output_file := Some "b.srt";
     millis := 0; section := 0 |}.

(** The start and the end of a time-range line, in milliseconds. *)
Definition range_totals (line : string) : option (Z * Z) :=
  match Re.match_ time_prog line with
  | Some result =>
      let field k := Py.decimal_value 0 (Re.group result k) in
      Some (total_millis (field 1%nat) (field 2%nat) (field 3%nat)
              (field 4%nat),
            total_millis (field 5%nat) (field 6%nat) (field 7%nat)
              (field 8%nat))
  | None => None
  end.

(** Is a total written with two-digit hours, and so read back? *)
Definition readable_total (total : Z) : Prop := 0 <= total < 360000000.

(* ------------------------------------------------------------------ *)
(** ** Facts about the builtins *)

(** Turns the boolean comparisons of a goal into arithmetic and closes it. *)
Ltac zbool :=
  cbv zeta in *;
  repeat match goal with
         | H : context [ (?a <=? ?b)%Z ] |- _ => destruct (Z.leb_spec a b)
         | H : context [ (?a <? ?b)%Z ] |- _ => destruct (Z.ltb_spec a b)
         | H : context [ (?a =? ?b)%Z ] |- _ => destruct (Z.eqb_spec a b)
         | |- context [ (?a <=? ?b)%Z ] => destruct (Z.leb_spec a b)
         | |- context [ (?a <? ?b)%Z ] => destruct (Z.ltb_spec a b)
         | |- context [ (?a =? ?b)%Z ] => destruct (Z.eqb_spec a b)
         end;
  cbn [andb orb negb] in *; try congruence; try lia.

Module PyFacts.
Import Py.

Lemma ord_range (c : ascii) : 0 <= ord c < 256.
Proof.
  unfold ord. pose proof (N_ascii_bounded c). lia.
Qed.

Lemma ord_chr (n : Z) : 0 <= n < 256 -> ord (chr n) = n.
Proof.
  intros Hn. unfold ord, chr.
  rewrite N_ascii_embedding by lia. lia.
Qed.

Lemma chr_ord (c : ascii) : chr (ord c) = c.
Proof.
  unfold ord, chr. rewrite N2Z.id. apply ascii_N_embedding.
Qed.

Lemma isdecimal_digit_char (d : Z) :
  0 <= d < 10 -> isdecimal (digit_char d) = true.
Proof.
  intros Hd. unfold isdecimal, digit_char.
  rewrite ord_chr by lia. zbool.
Qed.

Lemma digit_value_digit_char (d : Z) :
  0 <= d < 10 -> digit_value (digit_char d) = d.
Proof.
  intros Hd. unfold digit_value, digit_char.
  rewrite ord_chr by lia. lia.
Qed.

Lemma digit_value_range (c : ascii) :
  isdecimal c = true -> 0 <= digit_value c < 10.
Proof.
  unfold isdecimal, digit_value. intros H. zbool.
Qed.

Lemma isdecimal_isdigit_char (c : ascii) :
  isdecimal c = true -> isdigit_char c = true.
Proof.
  unfold isdigit_char. now intros ->.
Qed.

Lemma isdecimal_not_isspace (c : ascii) :
  isdecimal c = true -> isspace c = false.
Proof.
  unfold isdecimal, isspace. intros H. zbool.
Qed.

Lemma isdecimal_not_int_space (c : ascii) :
  isdecimal c = true -> int_space c = false.
Proof.
  unfold isdecimal, int_space. intros H. zbool.
Qed.

(** A character that is neither a digit nor, say, a sign or a colon: the
    test is on code points. *)
Lemma isdecimal_neq (c d : ascii) :
  isdecimal c = true -> isdecimal d = false -> Ascii.eqb c d = false.
Proof.
  intros Hc Hd. destruct (Ascii.eqb_spec c d); congruence.
Qed.

(** *** Strings *)

Lemma app_empty_r (s : string) : s ++ "" = s.
Proof.
  induction s; simpl; congruence.
Qed.

Lemma app_assoc (s t u : string) : (s ++ t) ++ u = s ++ t ++ u.
Proof.
  induction s; simpl; congruence.
Qed.

Lemma str_all_app (p : ascii -> bool) (s t : string) :
  str_all p (s ++ t) = str_all p s && str_all p t.
Proof.
  induction s; simpl; [reflexivity|].
  now rewrite IHs, andb_assoc.
Qed.

Lemma str_all_impl (p q : ascii -> bool) (s : string) :
  (forall c, p c = true -> q c = true) ->
  str_all p s = true -> str_all q s = true.
Proof.
  intros Hpq. induction s; simpl; [reflexivity|].
  intros [Ha Hs]%andb_true_iff. now rewrite (Hpq _ Ha), IHs.
Qed.

Lemma str_all_none (p q : ascii -> bool) (s : string) :
  (forall c, p c = true -> q c = false) ->
  str_all p s = true -> str_all (fun c => negb (q c)) s = true.
Proof.
  intros Hpq. apply str_all_impl. intros c Hc. now rewrite (Hpq _ Hc).
Qed.

(** *** Stripping *)

Lemma lstrip_keeps (p : ascii -> bool) (c : ascii) (s : string) :
  p c = false -> lstrip p (String c s) = String c s.
Proof.
  intros H. simpl. now rewrite H.
Qed.

Lemma lstrip_all (p : ascii -> bool) (w s : string) :
  str_all p w = true -> lstrip p (w ++ s) = lstrip p s.
Proof.
  induction w; simpl; [reflexivity|].
  intros [Ha Hw]%andb_true_iff. rewrite Ha. auto.
Qed.

Lemma rstrip_all (p : ascii -> bool) (w : string) :
  str_all p w = true -> rstrip p w = "".
Proof.
  induction w; simpl; [reflexivity|].
  intros [Ha Hw]%andb_true_iff. now rewrite IHw, Ha.
Qed.

(** Trailing characters of the stripped class go, the text before them
    stays when none of its characters is in the class. *)
Lemma rstrip_app (p : ascii -> bool) (s w : string) :
  str_all (fun c => negb (p c)) s = true -> str_all p w = true ->
  rstrip p (s ++ w) = s.
Proof.
  intros Hs Hw. induction s as [|a s IH]; simpl in *.
  - now apply rstrip_all.
  - apply andb_true_iff in Hs as [Ha Hs]. rewrite (IH Hs).
    apply negb_true_iff in Ha. rewrite Ha. now destruct s.
Qed.

Lemma strip_with_app (p : ascii -> bool) (s w : string) :
  str_all (fun c => negb (p c)) s = true -> str_all p w = true ->
  strip_with p (s ++ w) = s.
Proof.
  intros Hs Hw. unfold strip_with.
  destruct s as [|a s].
  - simpl. rewrite <- (app_empty_r w), lstrip_all by assumption. reflexivity.
  - simpl in Hs. apply andb_true_iff in Hs as [Ha Hs'].
    change (String a s ++ w) with (String a (s ++ w)).
    rewrite lstrip_keeps by now apply negb_true_iff.
    change (String a (s ++ w)) with (String a s ++ w).
    apply rstrip_app; [|assumption]. simpl. now rewrite Ha, Hs'.
Qed.


(** *** Reading numbers *)

Lemma decimal_value_app (acc : Z) (s t : string) :
  decimal_value acc (s ++ t) = decimal_value (decimal_value acc s) t.
Proof.
  revert acc. induction s; simpl; auto.
Qed.

Lemma int_digits_decimal (s : string) (acc : Z) :
  str_all isdecimal s = true ->
  int_digits acc true s = Some (decimal_value acc s).
Proof.
  revert acc. induction s as [|c s IH];
    cbn [decimal_value str_all int_digits]; intros acc H; [reflexivity|].
  apply andb_true_iff in H as [Hc Hs]. rewrite Hc. now apply IH.
Qed.

Lemma int_digits_decimal_start (s : string) :
  s <> "" -> str_all isdecimal s = true ->
  int_digits 0 false s = Some (decimal_value 0 s).
Proof.
  destruct s as [|c s]; [congruence|].
  cbn [decimal_value str_all int_digits]. intros _ H.
  apply andb_true_iff in H as [Hc Hs]. rewrite Hc.
  now apply int_digits_decimal.
Qed.

(** [int] reads a text of decimal digits, whatever white space of its own
    follows. *)
Lemma int_decimal (s w : string) :
  s <> "" -> str_all isdecimal s = true -> str_all int_space w = true ->
  int (s ++ w) = Ok (decimal_value 0 s).
Proof.
  intros Hne Hs Hw. unfold int.
  rewrite strip_with_app;
    [|now apply (str_all_none isdecimal), Hs; apply isdecimal_not_int_space
     |assumption].
  destruct s as [|c r]; [congruence|].
  pose proof Hs as Hs'. simpl in Hs'. apply andb_true_iff in Hs' as [Hc _].
  rewrite (isdecimal_neq c "-"), (isdecimal_neq c "+") by (assumption || reflexivity).
  now rewrite int_digits_decimal_start.
Qed.

Lemma int_decimal_plain (s : string) :
  s <> "" -> str_all isdecimal s = true -> int s = Ok (decimal_value 0 s).
Proof.
  intros Hne Hs. rewrite <- (app_empty_r s) at 1. now apply int_decimal.
Qed.

(** *** Writing numbers *)

Lemma decimal_digits_fuel (f g : nat) (n : Z) :
  0 <= n -> n < 2 ^ Z.of_nat (S f) -> n < 2 ^ Z.of_nat (S g) ->
  decimal_digits (S f) n = decimal_digits (S g) n.
Proof.
  revert g n. induction f as [|f IH]; intros g n Hn Hf Hg;
    cbn [decimal_digits]; destruct (Z.ltb_spec n 10); try reflexivity.
  - change (2 ^ Z.of_nat 1) with 2 in Hf. lia.
  - destruct g as [|g]; [change (2 ^ Z.of_nat 1) with 2 in Hg; lia|].
    rewrite Nat2Z.inj_succ, Z.pow_succ_r in Hf, Hg by lia.
    assert (0 < 2 ^ Z.of_nat (S f)) by (apply Z.pow_pos_nonneg; lia).
    assert (0 < 2 ^ Z.of_nat (S g)) by (apply Z.pow_pos_nonneg; lia).
    f_equal. apply IH.
    + apply Z.div_pos; lia.
    + apply Z.div_lt_upper_bound; lia.
    + apply Z.div_lt_upper_bound; lia.
Qed.

Lemma log2_fuel (n : Z) : 0 <= n -> n < 2 ^ Z.of_nat (S (Z.to_nat (Z.log2 n))).
Proof.
  intros Hn. rewrite Nat2Z.inj_succ, Z2Nat.id by apply Z.log2_nonneg.
  destruct (Z.eq_dec n 0) as [->|Hz]; [reflexivity|].
  apply Z.log2_spec. lia.
Qed.

Lemma str_nat_small (n : Z) :
  0 <= n < 10 -> str_nat n = String (digit_char n) "".
Proof.
  intros Hn. unfold str_nat. cbn [decimal_digits].
  destruct (Z.ltb_spec n 10); [|lia]. cbn [append].
  now rewrite Z.mod_small by lia.
Qed.

Lemma str_nat_step (n : Z) :
  10 <= n -> str_nat n = str_nat (n / 10) ++ String (digit_char (n mod 10)) "".
Proof.
  intros Hn. unfold str_nat at 1. cbn [decimal_digits].
  destruct (Z.ltb_spec n 10); [lia|].
  f_equal. unfold str_nat.
  pose proof (log2_fuel n ltac:(lia)) as Hf.
  assert (0 < Z.log2 n) by (apply Z.log2_pos; lia).
  destruct (Z.to_nat (Z.log2 n)) as [|k] eqn:Hk; [lia|].
  rewrite Nat2Z.inj_succ, Z.pow_succ_r in Hf by lia.
  assert (0 < 2 ^ Z.of_nat (S k)) by (apply Z.pow_pos_nonneg; lia).
  apply decimal_digits_fuel.
  - apply Z.div_pos; lia.
  - apply Z.div_lt_upper_bound; lia.
  - apply log2_fuel, Z.div_pos; lia.
Qed.

(** Induction along the digits of a number. *)
Lemma decimal_ind (P : Z -> Prop) :
  (forall n, 0 <= n < 10 -> P n) ->
  (forall n, 10 <= n -> P (n / 10) -> P n) ->
  forall n, 0 <= n -> P n.
Proof.
  intros Hsmall Hstep n Hn. revert Hn. pattern n.
  apply (well_founded_induction (Z.lt_wf 0)). clear n.
  intros n IH Hn.
  destruct (Z.lt_ge_cases n 10) as [Hlt|Hge].
  - apply Hsmall. lia.
  - apply Hstep; [assumption|].
    assert (0 <= n / 10) by (apply Z.div_pos; lia).
    assert (n / 10 < n) by (apply Z.div_lt; lia).
    apply IH; lia.
Qed.

Lemma str_nat_decimal (n : Z) :
  0 <= n -> str_all isdecimal (str_nat n) = true.
Proof.
  revert n. apply decimal_ind; intros n Hn.
  - rewrite str_nat_small by assumption. simpl.
    now rewrite isdecimal_digit_char.
  - intros IH. rewrite str_nat_step, str_all_app, IH by assumption. simpl.
    rewrite isdecimal_digit_char; [reflexivity|].
    apply Z.mod_pos_bound. lia.
Qed.

Lemma str_nat_nonempty (n : Z) : 0 <= n -> str_nat n <> "".
Proof.
  intros Hn. destruct (Z.lt_ge_cases n 10).
  - rewrite str_nat_small by lia. discriminate.
  - rewrite str_nat_step by lia. now destruct (str_nat (n / 10)).
Qed.

Lemma decimal_value_str_nat (n : Z) :
  0 <= n -> decimal_value 0 (str_nat n) = n.
Proof.
  revert n. apply decimal_ind; intros n Hn.
  - rewrite str_nat_small by assumption. cbn [decimal_value].
    rewrite digit_value_digit_char by assumption. lia.
  - intros IH. rewrite str_nat_step, decimal_value_app, IH by assumption.
    cbn [decimal_value].
    rewrite digit_value_digit_char by (apply Z.mod_pos_bound; lia).
    pose proof (Z.div_mod n 10). lia.
Qed.

Lemma str_nonneg (n : Z) : 0 <= n -> str n = str_nat n.
Proof.
  intros Hn. unfold str. destruct (Z.ltb_spec n 0); [lia|reflexivity].
Qed.

(** [int(str(n))] is [n], also when a line terminator follows. *)
Lemma int_str (n : Z) (w : string) :
  0 <= n -> str_all int_space w = true -> int (str n ++ w) = Ok n.
Proof.
  intros Hn Hw. rewrite str_nonneg by assumption.
  rewrite int_decimal, decimal_value_str_nat; auto using str_nat_nonempty, str_nat_decimal.
Qed.

(** *** Fixed-width fields *)

Lemma format2_digits (v : Z) :
  0 <= v < 100 ->
  format_zero_right 2 v
  = String (digit_char (v / 10)) (String (digit_char (v mod 10)) "").
Proof.
  intros Hv. unfold format_zero_right, rjust. rewrite str_nonneg by lia.
  destruct (Z.lt_ge_cases v 10).
  - rewrite str_nat_small, Z.div_small, Z.mod_small by lia. reflexivity.
  - assert (0 <= v / 10 < 10)
      by (split; [apply Z.div_pos|apply Z.div_lt_upper_bound]; lia).
    rewrite str_nat_step, str_nat_small by lia. reflexivity.
Qed.

Lemma format3_digits (v : Z) :
  0 <= v < 1000 ->
  format_zero_right 3 v
  = String (digit_char (v / 100))
      (String (digit_char (v / 10 mod 10)) (String (digit_char (v mod 10)) "")).
Proof.
  intros Hv. unfold format_zero_right, rjust. rewrite str_nonneg by lia.
  destruct (Z.lt_ge_cases v 10); [|destruct (Z.lt_ge_cases v 100)].
  - rewrite str_nat_small by lia.
    rewrite (Z.div_small v 100), (Z.div_small v 10), (Z.mod_small v 10) by lia.
    reflexivity.
  - assert (0 <= v / 10 < 10)
      by (split; [apply Z.div_pos|apply Z.div_lt_upper_bound]; lia).
    rewrite str_nat_step, str_nat_small by lia.
    rewrite (Z.div_small v 100), (Z.mod_small (v / 10) 10) by lia.
    reflexivity.
  - assert (10 <= v / 10 < 100)
      by (split; [apply Z.div_le_lower_bound|apply Z.div_lt_upper_bound]; lia).
    assert (0 <= v / 10 / 10 < 10)
      by (split; [apply Z.div_pos|apply Z.div_lt_upper_bound]; lia).
    rewrite str_nat_step, (str_nat_step (v / 10)), str_nat_small by lia.
    rewrite Z.div_div by lia. reflexivity.
Qed.

End PyFacts.

(* ------------------------------------------------------------------ *)
(** ** Facts about the patterns *)

Module ReFacts.
Import Py PyFacts.

Lemma expect_app (l rest : string) : Re.expect l (l ++ rest) = Some rest.
Proof.
  induction l as [|a l IH]; cbn [Re.expect append]; [reflexivity|].
  now rewrite Ascii.eqb_refl.
Qed.

Lemma lit_app (l rest : string) : Re.lit l (l ++ rest) = Some ([], rest).
Proof.
  unfold Re.lit. now rewrite expect_app.
Qed.

Lemma take_digits_app (d rest : string) :
  str_all isdecimal d = true ->
  Re.take_digits (String.length d) (d ++ rest) = Some (d, rest).
Proof.
  induction d as [|c d IH]; cbn [Re.take_digits append String.length str_all];
    [reflexivity|].
  intros [Hc Hd]%andb_true_iff. now rewrite Hc, IH.
Qed.

Lemma digits_app (n : nat) (d rest : string) :
  str_all isdecimal d = true -> String.length d = n ->
  Re.digits n (d ++ rest) = Some ([d], rest).
Proof.
  intros Hd <-. unfold Re.digits. now rewrite take_digits_app.
Qed.

Lemma take_digits_inv (n : nat) (s d rest : string) :
  Re.take_digits n s = Some (d, rest) ->
  s = d ++ rest /\ str_all isdecimal d = true /\ String.length d = n.
Proof.
  revert s d rest. induction n as [|n IH]; intros s d rest;
    cbn [Re.take_digits].
  - intros [= <- <-]. auto.
  - destruct s as [|c s]; [discriminate|].
    destruct (isdecimal c) eqn:Hc; [|discriminate].
    destruct (Re.take_digits n s) as [[d' rest']|] eqn:Hn; [|discriminate].
    intros [= <- <-]. destruct (IH _ _ _ Hn) as (-> & Hd & Hl).
    cbn [append str_all String.length]. rewrite Hc, Hd, Hl. auto.
Qed.

Lemma span_digits_spec (s : string) :
  s = fst (Re.span_digits s) ++ snd (Re.span_digits s)
  /\ str_all isdecimal (fst (Re.span_digits s)) = true.
Proof.
  induction s as [|c s [IH1 IH2]]; cbn [Re.span_digits]; [auto|].
  destruct (isdecimal c) eqn:Hc; [|auto].
  destruct (Re.span_digits s) as [d rest]. cbn [fst snd] in *.
  cbn [append str_all]. rewrite Hc, IH2, <- IH1. auto.
Qed.

(** The longest run of digits stops at the first other character. *)
Lemma span_digits_app (d : string) (c : ascii) (rest : string) :
  str_all isdecimal d = true -> isdecimal c = false ->
  Re.span_digits (d ++ String c rest) = (d, String c rest).
Proof.
  intros Hd Hc. induction d as [|a d IH]; cbn [Re.span_digits append].
  - now rewrite Hc.
  - cbn [str_all] in Hd. apply andb_true_iff in Hd as [Ha Hd].
    now rewrite Ha, IH.
Qed.

Lemma seq_inv (m1 m2 : Re.matcher) (s r : string) (g : list string) :
  (m1 >> m2) s = Some (g, r) ->
  exists g1 r1 g2,
    m1 s = Some (g1, r1) /\ m2 r1 = Some (g2, r) /\ g = (g1 ++ g2)%list.
Proof.
  unfold Re.seq. destruct (m1 s) as [[g1 r1]|] eqn:H1; [|discriminate].
  destruct (m2 r1) as [[g2 r2]|] eqn:H2; [|discriminate].
  intros [= <- <-]. exists g1, r1, g2. auto.
Qed.

Lemma lit_inv (l s r : string) (g : list string) :
  Re.lit l s = Some (g, r) -> g = [].
Proof.
  unfold Re.lit. destruct (Re.expect l s); [|discriminate]. now intros [= <- _].
Qed.

Lemma digits_inv (n : nat) (s r : string) (g : list string) :
  Re.digits (S n) s = Some (g, r) -> exists d, g = [d] /\ numeral d.
Proof.
  unfold Re.digits.
  destruct (Re.take_digits (S n) s) as [[d rest]|] eqn:H; [|discriminate].
  intros [= <- _]. apply take_digits_inv in H as (_ & Hd & Hl).
  exists d. repeat split; [|assumption]. now destruct d.
Qed.

Lemma digits_plus_inv (s r : string) (g : list string) :
  Re.digits_plus s = Some (g, r) -> exists d, g = [d] /\ numeral d.
Proof.
  unfold Re.digits_plus. pose proof (span_digits_spec s) as [_ Hd].
  destruct (Re.span_digits s) as [[|c d] rest]; [discriminate|].
  intros [= <- _]. exists (String c d). repeat split; [discriminate|assumption].
Qed.

Lemma int_numeral (d : string) :
  numeral d -> int d = Ok (decimal_value 0 d).
Proof.
  intros [Hne Hd]. now apply int_decimal_plain.
Qed.

End ReFacts.

(* ------------------------------------------------------------------ *)
(** ** Timestamp arithmetic *)

Section TimestampArithmetic.

Variables hours minutes seconds millis milli_offset : Z.

(** The fields [add_time] formats: minutes, seconds and milliseconds are
    normalised, and the flattened total is the old total plus the offset. *)
Lemma add_time_fields_spec :
  let '(h', m', s', ms') :=
    add_time_fields hours minutes seconds millis milli_offset in
  0 <= m' < 60 /\ 0 <= s' < 60 /\ 0 <= ms' < 1000
  /\ total_millis h' m' s' ms'
     = total_millis hours minutes seconds millis + milli_offset.
Proof.
  unfold add_time_fields, Py.divmod, total_millis. cbv beta iota zeta.
  Z.div_mod_to_equations. lia.
Qed.

End TimestampArithmetic.

(** [add_time] depends on its arguments through their total only. *)
Lemma add_time_fields_total (h m s ms a h' m' s' ms' b : Z) :
  total_millis h m s ms + a = total_millis h' m' s' ms' + b ->
  add_time_fields h m s ms a = add_time_fields h' m' s' ms' b.
Proof.
  unfold add_time_fields, total_millis. intros H.
  replace (ms + (h * 3600000 + m * 60000 + s * 1000 + a))
    with (ms' + (h' * 3600000 + m' * 60000 + s' * 1000 + b)) by lia.
  reflexivity.
Qed.

(** A canonical timestamp shifted by nothing is itself. *)
Lemma add_time_fields_zero (h m s ms : Z) :
  0 <= m < 60 -> 0 <= s < 60 -> 0 <= ms < 1000 ->
  add_time_fields h m s ms 0 = (h, m, s, ms).
Proof.
  intros Hm Hs Hms. unfold add_time_fields, Py.divmod. cbv beta iota zeta.
  repeat f_equal; Z.div_mod_to_equations; lia.
Qed.

Lemma shift_shift (t : Z * Z * Z * Z) (a b : Z) :
  shift (shift t a) b = shift t (a + b).
Proof.
  destruct t as [[[h m] s] ms]. unfold shift.
  pose proof (add_time_fields_spec h m s ms a) as H.
  destruct (add_time_fields h m s ms a) as [[[h1 m1] s1] ms1].
  destruct H as (_ & _ & _ & H).
  apply add_time_fields_total. lia.
Qed.

(* ------------------------------------------------------------------ *)
(** ** Writing a timestamp and reading it back *)

Module StampFacts.
Import Py PyFacts ReFacts.

Lemma field2 (v : Z) :
  0 <= v < 100 ->
  str_all isdecimal (format_zero_right 2 v) = true
  /\ String.length (format_zero_right 2 v) = 2%nat
  /\ int (format_zero_right 2 v) = Ok v.
Proof.
  intros Hv.
  assert (0 <= v / 10 < 10)
    by (split; [apply Z.div_pos|apply Z.div_lt_upper_bound]; lia).
  assert (0 <= v mod 10 < 10) by (apply Z.mod_pos_bound; lia).
  rewrite format2_digits by assumption.
  assert (Hd : str_all isdecimal
                 (String (digit_char (v / 10))
                    (String (digit_char (v mod 10)) "")) = true)
    by (cbn [str_all]; now rewrite !isdecimal_digit_char).
  repeat split; [assumption|].
  rewrite int_decimal_plain by (discriminate || assumption).
  cbn [decimal_value]. rewrite !digit_value_digit_char by assumption.
  f_equal. pose proof (Z.div_mod v 10). lia.
Qed.

Lemma field3 (v : Z) :
  0 <= v < 1000 ->
  str_all isdecimal (format_zero_right 3 v) = true
  /\ String.length (format_zero_right 3 v) = 3%nat
  /\ int (format_zero_right 3 v) = Ok v.
Proof.
  intros Hv.
  assert (0 <= v / 100 < 10)
    by (split; [apply Z.div_pos|apply Z.div_lt_upper_bound]; lia).
  assert (0 <= v / 10 mod 10 < 10) by (apply Z.mod_pos_bound; lia).
  assert (0 <= v mod 10 < 10) by (apply Z.mod_pos_bound; lia).
  rewrite format3_digits by assumption.
  assert (Hd : str_all isdecimal
                 (String (digit_char (v / 100))
                    (String (digit_char (v / 10 mod 10))
                       (String (digit_char (v mod 10)) ""))) = true)
    by (cbn [str_all]; now rewrite !isdecimal_digit_char).
  repeat split; [assumption|].
  rewrite int_decimal_plain by (discriminate || assumption).
  cbn [decimal_value]. rewrite !digit_value_digit_char by assumption.
  f_equal. Z.div_mod_to_equations. lia.
Qed.

(** Runs a pattern over a text written piece by piece. *)
Ltac run_pattern :=
  unfold Re.seq;
  repeat (first [ rewrite lit_app
                | rewrite digits_app by assumption ];
          cbv beta iota).

(** [SRT_PATTERN] reads the four fields [SRT_TEMPLATE] wrote, whatever
    follows them. *)
Lemma SRT_PATTERN_TEMPLATE (h m s ms : Z) (rest : string) :
  canonical h m s ms ->
  SRT_PATTERN (SRT_TEMPLATE h m s ms ++ rest)
  = Some ([format_zero_right 2 h; format_zero_right 2 m;
           format_zero_right 2 s; format_zero_right 3 ms], rest).
Proof.
  intros (Hh & Hm & Hs & Hms).
  destruct (field2 h Hh) as (? & ? & _),
    (field2 m ltac:(lia)) as (? & ? & _),
    (field2 s ltac:(lia)) as (? & ? & _), (field3 ms Hms) as (? & ? & _).
  unfold SRT_PATTERN, SRT_TEMPLATE. rewrite !app_assoc.
  run_pattern. reflexivity.
Qed.

Lemma parse_timestamp_TEMPLATE (h m s ms : Z) :
  canonical h m s ms ->
  parse_timestamp (SRT_TEMPLATE h m s ms) = Some (h, m, s, ms).
Proof.
  intros Hc. pose proof Hc as (Hh & Hm & Hs & Hms).
  unfold parse_timestamp, Re.match_.
  rewrite <- (app_empty_r (SRT_TEMPLATE h m s ms)).
  rewrite SRT_PATTERN_TEMPLATE by assumption.
  cbn [Re.group nth Nat.sub].
  destruct (field2 h Hh) as (_ & _ & ->),
    (field2 m ltac:(lia)) as (_ & _ & ->),
    (field2 s ltac:(lia)) as (_ & _ & ->), (field3 ms Hms) as (_ & _ & ->).
  reflexivity.
Qed.

End StampFacts.

(* ------------------------------------------------------------------ *)
(** ** One line of an SMI text *)

Module SmiFacts.
Import Py PyFacts ReFacts.

Lemma smi_line_plain (time_offset : Z) (line : string) :
  Re.match_ SMI_PATTERN line = None -> smi_line time_offset line = Ok line.
Proof.
  intros H. unfold smi_line. now rewrite H.
Qed.

(** The group of a match of [SMI_PATTERN] is a numeral. *)
Lemma SMI_PATTERN_inv (line : string) (g : list string) :
  Re.match_ SMI_PATTERN line = Some g -> exists d, g = [d] /\ numeral d.
Proof.
  unfold Re.match_.
  destruct (SMI_PATTERN line) as [[g' r]|] eqn:H; [|discriminate].
  intros [= <-]. unfold SMI_PATTERN in H.
  apply seq_inv in H as (g1 & r1 & g2 & H1 & H2 & ->).
  apply seq_inv in H2 as (g3 & r3 & g4 & H3 & H4 & ->).
  apply lit_inv in H1 as ->. apply lit_inv in H4 as ->.
  apply digits_plus_inv in H3 as (d & -> & Hd).
  exists d. auto.
Qed.

(** A matched line is rewritten from its number alone. *)
Lemma smi_line_matched (time_offset : Z) (line : string) (g : list string) :
  Re.match_ SMI_PATTERN line = Some g ->
  exists d, g = [d] /\ numeral d
            /\ smi_line time_offset line
               = Ok (SMI_TEMPLATE (decimal_value 0 d + time_offset)).
Proof.
  intros H. destruct (SMI_PATTERN_inv _ _ H) as (d & -> & Hd).
  exists d. repeat split; try apply Hd.
  unfold smi_line. rewrite H. cbn [Re.group nth Nat.sub].
  now rewrite int_numeral.
Qed.

Lemma smi_line_ok (time_offset : Z) (line : string) :
  exists line', smi_line time_offset line = Ok line'.
Proof.
  destruct (Re.match_ SMI_PATTERN line) as [g|] eqn:H.
  - destruct (smi_line_matched time_offset _ _ H) as (d & _ & _ & ->). eauto.
  - rewrite smi_line_plain by assumption. eauto.
Qed.

(** [SMI_PATTERN] on a marker line: the digits up to the closing bracket. *)
Lemma SMI_PATTERN_marker (d tail : string) :
  numeral d ->
  Re.match_ SMI_PATTERN ("<SYNC Start=" ++ d ++ ">" ++ tail) = Some [d].
Proof.
  intros [Hne Hd]. unfold Re.match_, SMI_PATTERN, Re.seq.
  rewrite lit_app. cbv beta iota.
  unfold Re.digits_plus. change (">" ++ tail) with (String ">" tail).
  rewrite span_digits_app by (assumption || reflexivity).
  destruct d as [|c d]; [congruence|].
  change (String ">" tail) with (">" ++ tail). now rewrite lit_app.
Qed.

Lemma smi_line_marker (time_offset : Z) (d tail : string) :
  numeral d ->
  smi_line time_offset ("<SYNC Start=" ++ d ++ ">" ++ tail)
  = Ok (SMI_TEMPLATE (decimal_value 0 d + time_offset)).
Proof.
  intros Hd. unfold smi_line. rewrite SMI_PATTERN_marker by assumption.
  cbn [Re.group nth Nat.sub]. now rewrite int_numeral.
Qed.

(** *** The loop *)

Lemma smi_loop_modified (time_offset : Z) (modified contents : list string) :
  smi_loop time_offset modified contents
  = (out <- smi_loop time_offset [] contents ;; Ok (modified ++ out)%list).
Proof.
  revert modified. induction contents as [|line rest IH]; intros modified;
    cbn [smi_loop bind].
  - now rewrite List.app_nil_r.
  - destruct (smi_line time_offset line) as [line'|e]; cbn [bind];
      [|reflexivity].
    rewrite (IH (modified ++ [line'])%list), (IH ([] ++ [line'])%list).
    destruct (smi_loop time_offset [] rest); cbn [bind]; [|reflexivity].
    now rewrite <- List.app_assoc.
Qed.

Lemma process_smi_cons (line : string) (rest : list string) (time_offset : Z) :
  process_smi (line :: rest) time_offset
  = (line' <- smi_line time_offset line ;;
     out <- process_smi rest time_offset ;;
     Ok (line' :: out)).
Proof.
  unfold process_smi. cbn [smi_loop].
  destruct (smi_line time_offset line) as [line'|e]; cbn [bind];
    [|reflexivity].
  now rewrite smi_loop_modified.
Qed.

Lemma process_smi_app (before after : list string) (time_offset : Z) :
  process_smi (before ++ after) time_offset
  = (out1 <- process_smi before time_offset ;;
     out2 <- process_smi after time_offset ;;
     Ok (out1 ++ out2)%list).
Proof.
  induction before as [|line rest IH]; cbn [List.app].
  - cbn [process_smi smi_loop bind].
    now destruct (process_smi after time_offset).
  - rewrite !process_smi_cons, IH.
    destruct (smi_line time_offset line); cbn [bind]; [|reflexivity].
    destruct (process_smi rest time_offset); cbn [bind]; [|reflexivity].
    now destruct (process_smi after time_offset).
Qed.

(** [process_smi] never raises, and rewrites line by line. *)
Lemma process_smi_lines (contents : list string) (time_offset : Z) :
  exists out,
    process_smi contents time_offset = Ok out
    /\ Forall2 (fun line line' => smi_line time_offset line = Ok line')
         contents out.
Proof.
  induction contents as [|line rest (out & Hout & Hall)].
  - exists []. split; [reflexivity|constructor].
  - destruct (smi_line_ok time_offset line) as (line' & Hline).
    exists (line' :: out). rewrite process_smi_cons, Hline, Hout.
    split; [reflexivity|now constructor].
Qed.

End SmiFacts.

(* ------------------------------------------------------------------ *)
(** ** One line of an SRT text *)

Module SrtFacts.
Import Py PyFacts ReFacts StampFacts.

Lemma srt_line_plain (section_offset time_offset : Z) (previous : option Z)
  (line : string) :
  classify line = Plain ->
  srt_line section_offset time_offset previous line = Ok (line, previous).
Proof.
  unfold classify, srt_line.
  destruct (Re.match_ time_prog line); [discriminate|].
  destruct (isdigit (strip line)); [|reflexivity].
  destruct (int line); discriminate.
Qed.

Lemma srt_line_section (section_offset time_offset : Z) (previous : option Z)
  (line : string) (n : Z) :
  classify line = SectionNumber n ->
  srt_line section_offset time_offset previous line
  = Ok (section_line (repair previous (n + section_offset)),
        Some (repair previous (n + section_offset))).
Proof.
  unfold classify, srt_line.
  destruct (Re.match_ time_prog line); [discriminate|].
  destruct (isdigit (strip line)); [|discriminate].
  destruct (int line); [|discriminate]. now intros [= ->].
Qed.

Lemma srt_line_malformed (section_offset time_offset : Z)
  (previous : option Z) (line : string) :
  classify line = Malformed ->
  srt_line section_offset time_offset previous line = Raise ValueError.
Proof.
  unfold classify, srt_line.
  destruct (Re.match_ time_prog line); [discriminate|].
  destruct (isdigit (strip line)); [|discriminate].
  destruct (int line) as [n|[]]; [discriminate|reflexivity].
Qed.

(** The eight groups of a match of [time_prog] are numerals. *)
Lemma time_prog_inv (line : string) (g : list string) :
  Re.match_ time_prog line = Some g ->
  exists d1 d2 d3 d4 d5 d6 d7 d8,
    g = [d1; d2; d3; d4; d5; d6; d7; d8]
    /\ Forall numeral [d1; d2; d3; d4; d5; d6; d7; d8].
Proof.
  unfold Re.match_.
  destruct (time_prog line) as [[g' r]|] eqn:H; [|discriminate].
  intros [= <-]. unfold time_prog, SRT_PATTERN in H.
  repeat match goal with
         | H : (_ >> _) _ = Some _ |- _ =>
             let H1 := fresh "H" in
             apply seq_inv in H as (? & ? & ? & H1 & H & ->)
         | H : Re.lit _ _ = Some _ |- _ => apply lit_inv in H as ->
         | H : Re.digits (S _) _ = Some _ |- _ =>
             apply digits_inv in H as (? & -> & ?)
         end.
  cbn [List.app]. do 8 eexists. split; [reflexivity|].
  repeat (apply Forall_cons; [assumption|]). apply Forall_nil.
Qed.

(** A time range never raises and leaves the section counter alone. *)
Lemma srt_line_time (section_offset time_offset : Z) (previous : option Z)
  (line : string) (g : list string) :
  classify line = TimeRange g ->
  exists line',
    srt_line section_offset time_offset previous line = Ok (line', previous).
Proof.
  unfold classify, srt_line.
  destruct (Re.match_ time_prog line) as [g'|] eqn:H.
  - intros _. destruct (time_prog_inv _ _ H)
      as (d1 & d2 & d3 & d4 & d5 & d6 & d7 & d8 & -> & Hall).
    repeat match goal with
           | H : Forall _ (_ :: _) |- _ => inversion H; subst; clear H
           end.
    cbn [Re.group nth Nat.sub].
    rewrite !int_numeral by assumption. cbn [bind]. eauto.
  - destruct (isdigit (strip line)); [|discriminate].
    destruct (int line); discriminate.
Qed.

(** *** Lines the program wrote itself *)

Lemma srt_line_time_line (previous : option Z) (h m s ms h' m' s' ms' : Z) :
  canonical h m s ms -> canonical h' m' s' ms' ->
  srt_line 0 0 previous (time_line h m s ms h' m' s' ms')
  = Ok (time_line h m s ms h' m' s' ms', previous).
Proof.
  intros Hc Hc'. pose proof Hc as (Hh & Hm & Hs & Hms).
  pose proof Hc' as (Hh' & Hm' & Hs' & Hms').
  unfold srt_line, Re.match_, time_prog, time_line, Re.seq.
  rewrite SRT_PATTERN_TEMPLATE by assumption. cbv beta iota.
  rewrite lit_app. cbv beta iota.
  rewrite SRT_PATTERN_TEMPLATE by assumption.
  cbn [Re.group nth Nat.sub List.app].
  destruct (field2 h Hh) as (_ & _ & ->),
    (field2 m ltac:(lia)) as (_ & _ & ->),
    (field2 s ltac:(lia)) as (_ & _ & ->), (field3 ms Hms) as (_ & _ & ->),
    (field2 h' Hh') as (_ & _ & ->),
    (field2 m' ltac:(lia)) as (_ & _ & ->),
    (field2 s' ltac:(lia)) as (_ & _ & ->), (field3 ms' Hms') as (_ & _ & ->).
  cbn [bind]. unfold add_time.
  rewrite !add_time_fields_zero by assumption. reflexivity.
Qed.

Lemma expect_inv (l s rest : string) :
  Re.expect l s = Some rest -> s = l ++ rest.
Proof.
  revert s. induction l as [|a l IH]; intros s; cbn [Re.expect append].
  - now intros [= ->].
  - destruct s as [|b s]; [discriminate|].
    destruct (Ascii.eqb_spec a b) as [->|]; [|discriminate].
    intros H. now rewrite (IH _ H).
Qed.

(** A line [time_prog] matches has a colon in it. *)
Lemma time_prog_colon (line : string) (g : list string) :
  Re.match_ time_prog line = Some g ->
  str_all (fun c => negb (Ascii.eqb c ":")) line = false.
Proof.
  unfold Re.match_.
  destruct (time_prog line) as [[g' r]|] eqn:H; [|discriminate]. intros _.
  unfold time_prog, SRT_PATTERN in H.
  apply seq_inv in H as (? & ? & ? & H & _ & _).
  apply seq_inv in H as (? & r1 & ? & H1 & H & _).
  apply seq_inv in H as (? & r2 & ? & H2 & _ & _).
  unfold Re.digits in H1.
  destruct (Re.take_digits 2 line) as [[d r1']|] eqn:Hd; [|discriminate].
  injection H1 as _ <-. apply take_digits_inv in Hd as (-> & _ & _).
  unfold Re.lit in H2.
  destruct (Re.expect ":" r1') as [r2'|] eqn:He; [|discriminate].
  apply expect_inv in He as ->.
  rewrite str_all_app. cbn [append str_all].
  rewrite Ascii.eqb_refl. cbn [negb andb]. apply andb_false_r.
Qed.

Lemma classify_section_line (n : Z) :
  0 <= n -> classify (section_line n) = SectionNumber n.
Proof.
  intros Hn. unfold classify, section_line.
  rewrite str_nonneg by assumption.
  pose proof (str_nat_decimal n Hn) as Hd.
  pose proof (str_nat_nonempty n Hn) as Hne.
  destruct (Re.match_ time_prog (str_nat n ++ CRLF)) as [g|] eqn:Hm.
  - apply time_prog_colon in Hm. rewrite str_all_app in Hm.
    rewrite (str_all_impl isdecimal) in Hm; [discriminate| |assumption].
    intros c Hc. now rewrite (isdecimal_neq c ":").
  - unfold strip. rewrite strip_with_app;
      [|now apply (str_all_none isdecimal), Hd; apply isdecimal_not_isspace
       |reflexivity].
    assert (isdigit (str_nat n) = true) as ->.
    { unfold isdigit. destruct (str_nat n); [congruence|].
      revert Hd. apply str_all_impl, isdecimal_isdigit_char. }
    rewrite <- (str_nonneg n) by assumption.
    now rewrite int_str.
Qed.

(** *** The repair rule *)

Lemma repair_follows (previous : option Z) (n : Z) :
  match previous with Some p => n =? p + 1 | None => true end = true ->
  repair previous n = n.
Proof.
  unfold repair. destruct previous as [p|]; [|reflexivity].
  intros ->. now rewrite andb_false_r.
Qed.

(** The rule as the program applies it: a previous number that is not 0
    forces its successor. *)
Lemma repair_nonzero (p n : Z) : p <> 0 -> repair (Some p) n = p + 1.
Proof.
  intros Hp. unfold repair, truthy.
  destruct (Z.eqb_spec p 0); [contradiction|].
  destruct (Z.eqb_spec n (p + 1)); cbn [negb andb]; congruence.
Qed.

Lemma repair_zero (n : Z) : repair (Some 0) n = n.
Proof.
  reflexivity.
Qed.

Lemma repair_changes (previous : option Z) (n : Z) :
  repair previous n <> n ->
  exists p, previous = Some p /\ n <> p + 1 /\ repair previous n = p + 1.
Proof.
  unfold repair. destruct previous as [p|]; [|congruence].
  destruct (truthy (Some p) && negb (n =? p + 1)) eqn:H; [|congruence].
  intros _. exists p. apply andb_true_iff in H as [_ H].
  apply negb_true_iff, Z.eqb_neq in H. auto.
Qed.

(** *** The loop *)

Lemma srt_loop_modified (section_offset time_offset : Z)
  (previous : option Z) (modified contents : list string) :
  srt_loop section_offset time_offset previous modified contents
  = (out <- srt_loop section_offset time_offset previous [] contents ;;
     Ok (modified ++ out)%list).
Proof.
  revert previous modified.
  induction contents as [|line rest IH]; intros previous modified;
    cbn [srt_loop bind].
  - now rewrite List.app_nil_r.
  - destruct (srt_line section_offset time_offset previous line)
      as [[line' previous']|e]; cbn [bind]; [|reflexivity].
    rewrite (IH previous' (modified ++ [line'])%list),
      (IH previous' ([] ++ [line'])%list).
    destruct (srt_loop section_offset time_offset previous' [] rest);
      cbn [bind]; [|reflexivity].
    now rewrite <- List.app_assoc.
Qed.

Lemma srt_loop_cons (section_offset time_offset : Z) (previous : option Z)
  (line : string) (rest : list string) :
  srt_loop section_offset time_offset previous [] (line :: rest)
  = ('(line', previous') <-
       srt_line section_offset time_offset previous line ;;
     out <- srt_loop section_offset time_offset previous' [] rest ;;
     Ok (line' :: out)).
Proof.
  cbn [srt_loop].
  destruct (srt_line section_offset time_offset previous line)
    as [[line' previous']|e]; cbn [bind]; [|reflexivity].
  now rewrite srt_loop_modified.
Qed.

(** A well-formed text goes through the loop unchanged when both offsets
    are zero, from any state the numbering allows. *)
Lemma well_formed_fixed (previous : option Z) (lines : list string) :
  well_formed previous lines -> srt_loop 0 0 previous [] lines = Ok lines.
Proof.
  induction 1 as [previous
                 |previous h m s ms h' m' s' ms' rest Hc Hc' _ IH
                 |previous n rest Hn Hp _ IH
                 |previous line rest Hl _ IH];
    [reflexivity|rewrite srt_loop_cons..].
  - rewrite srt_line_time_line by assumption. cbn [bind]. now rewrite IH.
  - rewrite (srt_line_section 0 0 previous _ n)
      by now apply classify_section_line.
    rewrite Z.add_0_r, repair_follows.
    + cbn [bind]. now rewrite IH.
    + destruct previous as [p|]; [|reflexivity].
      apply Z.eqb_eq. now apply Hp.
  - rewrite srt_line_plain by assumption. cbn [bind]. now rewrite IH.
Qed.

Lemma section_numbers_cons (line : string) (rest : list string) :
  section_numbers (line :: rest)
  = (match classify line with
     | SectionNumber n => [n]
     | _ => []
     end ++ section_numbers rest)%list.
Proof.
  reflexivity.
Qed.

Lemma sections_unchanged_cons (line line' : string) (rest out : list string) :
  (forall n, classify line = SectionNumber n -> line' = str n ++ CRLF) ->
  sections_unchanged rest out ->
  sections_unchanged (line :: rest) (line' :: out).
Proof.
  intros Hhead Htail [|i] l n; cbn [nth_error].
  - intros [= <-] Hc. now rewrite (Hhead n Hc).
  - apply Htail.
Qed.

(** Section numbers that follow one another, from the state of the loop
    on, are written back as they are. *)
Lemma follows_unchanged (time_offset : Z) (lines : list string) :
  Forall (fun line => classify line <> Malformed) lines ->
  forall previous,
    follows previous (section_numbers lines) = true ->
    exists out,
      srt_loop 0 time_offset previous [] lines = Ok out
      /\ sections_unchanged lines out.
Proof.
  induction 1 as [|line rest Hline _ IH]; intros previous Hf.
  - exists []. split; [reflexivity|]. now intros [|i] l n.
  - rewrite section_numbers_cons in Hf. rewrite srt_loop_cons.
    destruct (classify line) as [g|n| |] eqn:Hc; [| |congruence|].
    + destruct (srt_line_time 0 time_offset previous _ _ Hc) as (line' & ->).
      cbn [bind]. destruct (IH previous Hf) as (out & -> & Hout).
      exists (line' :: out). split; [reflexivity|].
      apply sections_unchanged_cons; [congruence|assumption].
    + cbn [List.app follows] in Hf. apply andb_true_iff in Hf as [Hn Hf].
      rewrite (srt_line_section 0 time_offset previous _ n Hc).
      rewrite Z.add_0_r, repair_follows by assumption.
      cbn [bind]. destruct (IH (Some n) Hf) as (out & -> & Hout).
      exists (section_line n :: out). split; [reflexivity|].
      apply sections_unchanged_cons; [|assumption].
      intros n' Hn'. rewrite Hc in Hn'. now injection Hn' as <-.
    + rewrite srt_line_plain by assumption.
      cbn [bind]. destruct (IH previous Hf) as (out & -> & Hout).
      exists (line :: out). split; [reflexivity|].
      apply sections_unchanged_cons; [congruence|assumption].
Qed.

(** With a previous number other than 0, a section line comes out as the
    successor of the previous number whenever its own number is not. *)
Lemma srt_line_repairs (section_offset time_offset p n : Z) (line : string) :
  classify line = SectionNumber n -> p <> 0 ->
  srt_line section_offset time_offset (Some p) line
  = Ok (section_line (p + 1), Some (p + 1)).
Proof.
  intros Hc Hp. rewrite (srt_line_section _ _ _ _ n Hc).
  now rewrite repair_nonzero.
Qed.

(** After the number 0 nothing is repaired. *)
Lemma srt_line_after_zero (section_offset time_offset n : Z) (line : string) :
  classify line = SectionNumber n ->
  srt_line section_offset time_offset (Some 0) line
  = Ok (section_line (n + section_offset), Some (n + section_offset)).
Proof.
  intros Hc. now rewrite (srt_line_section _ _ _ _ n Hc), repair_zero.
Qed.

(** [process_srt] raises on malformed section lines only. *)
Lemma process_srt_ok (section_offset time_offset : Z) (lines : list string) :
  Forall (fun line => classify line <> Malformed) lines ->
  forall previous,
  exists out,
    srt_loop section_offset time_offset previous [] lines = Ok out.
Proof.
  induction 1 as [|line rest Hline _ IH]; intros previous.
  - exists []. reflexivity.
  - rewrite srt_loop_cons.
    destruct (classify line) as [g|n| |] eqn:Hc; [| |congruence|].
    + destruct (srt_line_time section_offset time_offset previous _ _ Hc)
        as (line' & ->).
      cbn [bind]. destruct (IH previous) as (out & ->). cbn [bind]. eauto.
    + rewrite (srt_line_section _ _ previous _ n Hc). cbn [bind].
      destruct (IH (Some (repair previous (n + section_offset))))
        as (out & ->).
      cbn [bind]. eauto.
    + rewrite srt_line_plain by assumption.
      cbn [bind]. destruct (IH previous) as (out & ->). cbn [bind]. eauto.
Qed.

End SrtFacts.

(* ------------------------------------------------------------------ *)
(** ** The properties of the specification *)

Import Py PyFacts ReFacts StampFacts SmiFacts SrtFacts.

(** C1.  The repair rule does not hold for every previous number: after the
    number 0 has been written, the next section number is kept as it is,
    where after any other number it is forced to the successor.  On the
    section lines 0, 5 the program writes 0, 5, and on 1, 5 with section
    offset -1 it writes 0, 4; on 1, 5 with offset 0 it writes 1, 2. *)
Theorem C1_previous_zero_is_not_repaired :
  process_srt ["0" ++ CRLF; "5" ++ CRLF] 0 0 = Ok ["0" ++ CRLF; "5" ++ CRLF]
  /\ process_srt ["1" ++ CRLF; "5" ++ CRLF] (-1) 0
     = Ok ["0" ++ CRLF; "4" ++ CRLF]
  /\ process_srt ["1" ++ CRLF; "5" ++ CRLF] 0 0
     = Ok ["1" ++ CRLF; "2" ++ CRLF].
Proof.
  repeat split; vm_compute; reflexivity.
Qed.




(** C3, as stated, at (100, 0, 0, 0): the fields are in the ranges of the
    claim, the text written is 100:00:00,000 and [SRT_PATTERN] does not
    match it. *)
Lemma C3_three_digit_hours_do_not_read_back :
  (0 <= 100 /\ 0 <= 0 < 60 /\ 0 <= 0 < 60 /\ 0 <= 0 < 1000)
  /\ SRT_TEMPLATE 100 0 0 0 = "100:00:00,000"
  /\ parse_timestamp (SRT_TEMPLATE 100 0 0 0) <> Some (100, 0, 0, 0).
Proof.
  split; [lia|]. split; vm_compute; [reflexivity|discriminate].
Qed.

(** C3, amended.  For hours below 100, minutes and seconds below 60 and
    milliseconds below 1000, all non-negative, the text [SRT_TEMPLATE]
    writes is read back by [SRT_PATTERN] as the same four numbers. *)
Theorem C3_format_then_parse (h m s ms : Z) :
  0 <= h < 100 -> 0 <= m < 60 -> 0 <= s < 60 -> 0 <= ms < 1000 ->
  parse_timestamp (SRT_TEMPLATE h m s ms) = Some (h, m, s, ms).
Proof.
  intros Hh Hm Hs Hms. apply parse_timestamp_TEMPLATE.
  unfold canonical. auto.
Qed.

Lemma C3_format_then_parse_witness :
  (0 <= 1 < 100 /\ 0 <= 2 < 60 /\ 0 <= 3 < 60 /\ 0 <= 4 < 1000)
  /\ parse_timestamp (SRT_TEMPLATE 1 2 3 4) = Some (1, 2, 3, 4).
Proof.
  split; [lia|].
  apply (C3_format_then_parse 1 2 3 4); lia.
Defined.



(** C5.  Shifting a timestamp by [a] and the result by [b] is shifting it
    by [a + b], on the fields and on the text [add_time] returns, when the
    totals in between are non-negative. *)
Theorem C5_shift_additive (h m s ms a b : Z) :
  0 <= h -> 0 <= m -> 0 <= s -> 0 <= ms ->
  0 <= total_millis h m s ms + a ->
  0 <= total_millis h m s ms + a + b ->
  shift (shift (h, m, s, ms) a) b = shift (h, m, s, ms) (a + b)
  /\ (let '(h1, m1, s1, ms1) := shift (h, m, s, ms) a in
      add_time h1 m1 s1 ms1 b)
     = add_time h m s ms (a + b).
Proof.
  intros _ _ _ _ _ _.
  pose proof (shift_shift (h, m, s, ms) a b) as H. split; [exact H|].
  unfold add_time, shift in *.
  destruct (add_time_fields h m s ms a) as [[[h1 m1] s1] ms1].
  cbv beta iota in H |- *. now rewrite H.
Qed.

Lemma C5_shift_additive_witness :
  shift (shift (0, 0, 1, 0) 2500) (-500) = shift (0, 0, 1, 0) (2500 + -500)
  /\ (let '(h1, m1, s1, ms1) := shift (0, 0, 1, 0) 2500 in
      add_time h1 m1 s1 ms1 (-500))
     = add_time 0 0 1 0 (2500 + -500).
Proof.
  apply (C5_shift_additive 0 0 1 0 2500 (-500)); unfold total_millis; lia.
Defined.

(** C6.  [process_srt] does raise on some lines: a line holding the
    superscript two passes the digit test of the loop and is then rejected
    by [int], and so is a line holding 12 after an information separator,
    which [strip] removes and [int] does not. *)
Theorem C6_digit_test_admits_what_int_rejects :
  (isdigit (strip superscript_line) = true
   /\ int superscript_line = Raise ValueError
   /\ process_srt [superscript_line] 0 0 = Raise ValueError)
  /\ (isdigit (strip separator_line) = true
      /\ int separator_line = Raise ValueError
      /\ process_srt [separator_line] 0 0 = Raise ValueError).
Proof.
  repeat split; vm_compute; reflexivity.
Qed.



Lemma smi_lines_pass_through (time_offset : Z) (contents out : list string) :
  Forall2 (fun line line' => smi_line time_offset line = Ok line')
    contents out ->
  forall i line,
    nth_error contents i = Some line ->
    Re.match_ SMI_PATTERN line = None ->
    nth_error out i = Some line.
Proof.
  induction 1 as [|line0 line0' rest out' Hline _ IH]; intros [|i] line;
    cbn [nth_error]; try discriminate.
  - intros [= ->] Hno. rewrite smi_line_plain in Hline by assumption.
    now injection Hline as <-.
  - apply IH.
Qed.



(** C9.  Scenario 2: the time range from 1 s to 2.5 s moved by -500 ms. *)
Theorem C9_scenario_2 :
  process_srt ["00:00:01,000 --> 00:00:02,500"] 0 (-500)
  = Ok ["00:00:00,500 --> 00:00:02,000" ++ CRLF].
Proof.
  vm_compute. reflexivity.
Qed.

(** C10.  Whatever the offset, the minutes and seconds [add_time] computes
    lie in 0..59 and the milliseconds in 0..999, and the fields add up to
    the old total plus the offset; the hours are negative exactly when that
    sum is. *)
Theorem C10_fields_normalised (h m s ms offset : Z) :
  0 <= h -> 0 <= m -> 0 <= s -> 0 <= ms ->
  let '(h', m', s', ms') := add_time_fields h m s ms offset in
  0 <= m' < 60 /\ 0 <= s' < 60 /\ 0 <= ms' < 1000
  /\ h' * 3600000 + m' * 60000 + s' * 1000 + ms'
     = h * 3600000 + m * 60000 + s * 1000 + ms + offset
  /\ (h' < 0 <-> h * 3600000 + m * 60000 + s * 1000 + ms + offset < 0).
Proof.
  intros _ _ _ _.
  pose proof (add_time_fields_spec h m s ms offset) as H.
  destruct (add_time_fields h m s ms offset) as [[[h' m'] s'] ms'].
  unfold total_millis in H. destruct H as (Hm & Hs & Hms & Htotal).
  repeat split; try lia.
Qed.

Lemma C10_fields_normalised_witness :
  add_time_fields 0 0 0 0 (-1) = (-1, 59, 59, 999)
  /\ let '(h', m', s', ms') := add_time_fields 0 0 0 0 (-1) in
     0 <= m' < 60 /\ 0 <= s' < 60 /\ 0 <= ms' < 1000
     /\ h' * 3600000 + m' * 60000 + s' * 1000 + ms'
        = 0 * 3600000 + 0 * 60000 + 0 * 1000 + 0 + -1
     /\ (h' < 0 <-> 0 * 3600000 + 0 * 60000 + 0 * 1000 + 0 + -1 < 0).
Proof.
  split; [reflexivity|].
  apply (C10_fields_normalised 0 0 0 0 (-1)); lia.
Defined.

(* ------------------------------------------------------------------ *)
(** ** Further properties of the timestamp arithmetic *)

Lemma shifted_hours (h m s ms offset : Z) :
  let '(h', m', s', ms') := add_time_fields h m s ms offset in
  (0 <= m' < 60 /\ 0 <= s' < 60 /\ 0 <= ms' < 1000)
  /\ (0 <= total_millis h m s ms + offset < 360000000 -> 0 <= h' < 100)
  /\ (total_millis h m s ms + offset < 0 -> h' < 0)
  /\ (360000000 <= total_millis h m s ms + offset -> 100 <= h').
Proof.
  pose proof (add_time_fields_spec h m s ms offset) as H.
  destruct (add_time_fields h m s ms offset) as [[[h' m'] s'] ms'].
  unfold total_millis in *. destruct H as (Hm & Hs & Hms & Htotal).
  repeat split; lia.
Qed.

Lemma format2_negative (v : Z) :
  v < 0 -> exists r, format_zero_right 2 v = String "-" r.
Proof.
  intros Hv. unfold format_zero_right, rjust, str.
  destruct (Z.ltb_spec v 0); [|lia].
  pose proof (str_nat_nonempty (- v) ltac:(lia)) as Hne.
  destruct (str_nat (- v)) as [|c r]; [congruence|].
  exists (String c r). reflexivity.
Qed.

Lemma str_nat_three (n : Z) :
  100 <= n ->
  exists a b c r,
    str_nat n = String a (String b (String c r)) /\ isdecimal c = true.
Proof.
  intros Hn.
  assert (H10 : 10 <= n / 10) by (apply Z.div_le_lower_bound; lia).
  assert (H100 : 0 <= n / 10 / 10) by (apply Z.div_pos; lia).
  pose proof (str_nat_decimal n ltac:(lia)) as Hd.
  rewrite (str_nat_step n), (str_nat_step (n / 10)) in Hd |- * by lia.
  pose proof (str_nat_nonempty _ H100) as Hne.
  destruct (str_nat (n / 10 / 10)) as [|a [|b [|c r]]]; [congruence|..];
    cbn [append str_all] in Hd |- *;
    repeat match type of Hd with
           | _ && _ = true => apply andb_true_iff in Hd as [? Hd]
           end;
    eauto 8.
Qed.

Lemma format2_three_digits (v : Z) :
  100 <= v ->
  exists a b c r,
    format_zero_right 2 v = String a (String b (String c r))
    /\ isdecimal c = true.
Proof.
  intros Hv. unfold format_zero_right, rjust. rewrite str_nonneg by lia.
  destruct (str_nat_three v Hv) as (a & b & c & r & -> & Hc).
  exists a, b, c, r. split; [reflexivity|assumption].
Qed.

(** [SRT_PATTERN] does not match a timestamp written with negative hours
    or with hours of three digits and more. *)
Lemma SRT_PATTERN_out_of_range (h m s ms : Z) (rest : string) :
  h < 0 \/ 100 <= h -> SRT_PATTERN (SRT_TEMPLATE h m s ms ++ rest) = None.
Proof.
  intros Hh. unfold SRT_PATTERN, SRT_TEMPLATE. rewrite !app_assoc.
  unfold Re.seq at 1, Re.digits at 1.
  destruct Hh as [Hneg|Hbig].
  - destruct (format2_negative h Hneg) as (r & ->). reflexivity.
  - destruct (format2_three_digits h Hbig) as (a & b & c & r & -> & Hc).
    cbn [append Re.take_digits].
    destruct (isdecimal a); [|reflexivity].
    destruct (isdecimal b); [|reflexivity].
    unfold Re.seq at 1, Re.lit at 1. cbn [Re.expect].
    rewrite Ascii.eqb_sym, (isdecimal_neq c ":") by (assumption || reflexivity).
    reflexivity.
Qed.

(** X1.  Shifting a normalised timestamp by an offset and back by the same
    offset gives the timestamp again, whatever the sign of the hours in
    between. *)
Theorem X1_shift_back (h m s ms offset : Z) :
  0 <= m < 60 -> 0 <= s < 60 -> 0 <= ms < 1000 ->
  shift (shift (h, m, s, ms) offset) (- offset) = (h, m, s, ms).
Proof.
  intros Hm Hs Hms. rewrite shift_shift, Z.add_opp_diag_r.
  now apply add_time_fields_zero.
Qed.

Lemma X1_shift_back_witness :
  shift (shift (0, 0, 1, 0) (-5000)) (- -5000) = (0, 0, 1, 0).
Proof.
  apply (X1_shift_back 0 0 1 0 (-5000)); lia.
Defined.

(** X2.  When the shifted total lies between 0 and 100 hours, the text
    [add_time] returns is read back by [SRT_PATTERN] as the shifted
    fields. *)
Theorem X2_add_time_reads_back (h m s ms offset : Z) :
  0 <= total_millis h m s ms + offset < 360000000 ->
  parse_timestamp (add_time h m s ms offset)
  = Some (add_time_fields h m s ms offset).
Proof.
  intros Hrange. unfold add_time.
  pose proof (shifted_hours h m s ms offset) as H.
  destruct (add_time_fields h m s ms offset) as [[[h' m'] s'] ms'].
  destruct H as ((Hm & Hs & Hms) & Hh & _).
  apply parse_timestamp_TEMPLATE. unfold canonical. auto.
Qed.

Lemma X2_add_time_reads_back_witness :
  parse_timestamp (add_time 99 59 59 0 999)
  = Some (add_time_fields 99 59 59 0 999).
Proof.
  apply (X2_add_time_reads_back 99 59 59 0 999). unfold total_millis. lia.
Defined.

(** X3.  When the shifted total is negative or reaches 100 hours, the text
    [add_time] returns is not matched by [SRT_PATTERN]: the program cannot
    read such a timestamp back. *)
Theorem X3_add_time_out_of_range (h m s ms offset : Z) :
  total_millis h m s ms + offset < 0
  \/ 360000000 <= total_millis h m s ms + offset ->
  parse_timestamp (add_time h m s ms offset) = None.
Proof.
  intros Hrange. unfold add_time, parse_timestamp, Re.match_.
  pose proof (shifted_hours h m s ms offset) as H.
  destruct (add_time_fields h m s ms offset) as [[[h' m'] s'] ms'].
  destruct H as (_ & _ & Hneg & Hbig).
  rewrite <- (app_empty_r (SRT_TEMPLATE h' m' s' ms')).
  rewrite SRT_PATTERN_out_of_range; [reflexivity|].
  destruct Hrange; [left|right]; auto.
Qed.

Lemma X3_add_time_out_of_range_witness :
  parse_timestamp (add_time 0 0 0 0 (-1)) = None
  /\ parse_timestamp (add_time 99 59 59 999 1) = None.
Proof.
  split.
  - apply (X3_add_time_out_of_range 0 0 0 0 (-1)). unfold total_millis. lia.
  - apply (X3_add_time_out_of_range 99 59 59 999 1). unfold total_millis. lia.
Defined.

(* ------------------------------------------------------------------ *)
(** ** Further properties of the SMI rewriter *)

(** A marker the program wrote is a marker again when its number is not
    negative, and an ordinary line when it is. *)
Lemma smi_line_TEMPLATE (n offset : Z) :
  smi_line offset (SMI_TEMPLATE n)
  = Ok (if n <? 0 then SMI_TEMPLATE n else SMI_TEMPLATE (n + offset)).
Proof.
  unfold SMI_TEMPLATE at 1. destruct (Z.ltb_spec n 0) as [Hneg|Hpos].
  - apply smi_line_plain. unfold Re.match_, SMI_PATTERN, SMI_TEMPLATE, Re.seq.
    rewrite lit_app. cbv beta iota. unfold str.
    destruct (Z.ltb_spec n 0); [|lia]. reflexivity.
  - rewrite smi_line_marker.
    + now rewrite str_nonneg, decimal_value_str_nat.
    + rewrite str_nonneg by assumption.
      split; [now apply str_nat_nonempty|now apply str_nat_decimal].
Qed.

Lemma marker_value_matched (line : string) (g : list string) :
  Re.match_ SMI_PATTERN line = Some g ->
  exists d, g = [d] /\ numeral d
            /\ marker_value line = Some (decimal_value 0 d).
Proof.
  intros H. destruct (SMI_PATTERN_inv _ _ H) as (d & -> & Hd).
  exists d. repeat split; try apply Hd.
  unfold marker_value. rewrite H. cbn [Re.group nth Nat.sub].
  now rewrite int_numeral.
Qed.

Lemma smi_line_twice (a b : Z) (line : string) :
  (forall v, marker_value line = Some v -> 0 <= v + a) ->
  exists line',
    smi_line a line = Ok line' /\ smi_line b line' = smi_line (a + b) line.
Proof.
  intros Hv. destruct (Re.match_ SMI_PATTERN line) as [g|] eqn:Hm.
  - destruct (marker_value_matched _ _ Hm) as (d & -> & Hd & Hval).
    destruct (smi_line_matched a _ _ Hm) as (d1 & [= <-] & _ & ->).
    destruct (smi_line_matched (a + b) _ _ Hm) as (d2 & [= <-] & _ & ->).
    eexists. split; [reflexivity|].
    rewrite smi_line_TEMPLATE. specialize (Hv _ Hval).
    destruct (Z.ltb_spec (decimal_value 0 d + a) 0); [lia|].
    now rewrite Z.add_assoc.
  - exists line. rewrite !smi_line_plain by assumption. auto.
Qed.




Lemma process_smi_twice (contents : list string) (a b : Z) :
  Forall (fun line => forall v, marker_value line = Some v -> 0 <= v + a)
    contents ->
  exists between,
    process_smi contents a = Ok between
    /\ process_smi between b = process_smi contents (a + b).
Proof.
  induction 1 as [|line rest Hline _ (between & Hrun & Hsame)].
  - exists []. split; reflexivity.
  - destruct (smi_line_twice a b line Hline) as (line' & Ha & Hb).
    exists (line' :: between).
    rewrite !process_smi_cons, Ha, Hrun, Hb, Hsame. cbn [bind].
    split; reflexivity.
Qed.



(* ------------------------------------------------------------------ *)
(** ** Further properties of the SRT rewriter *)

Lemma srt_loop_raises (section_offset time_offset : Z) (lines : list string) :
  Exists (fun line => classify line = Malformed) lines ->
  forall previous,
    srt_loop section_offset time_offset previous [] lines = Raise ValueError.
Proof.
  induction 1 as [line rest Hline|line rest _ IH]; intros previous;
    rewrite srt_loop_cons.
  - now rewrite srt_line_malformed.
  - destruct (srt_line section_offset time_offset previous line)
      as [[line' previous']|[]]; cbn [bind]; [|reflexivity].
    now rewrite IH.
Qed.

(** Every line of the output is the rewriting of the line at its place,
    in the state the loop has reached there. *)
Lemma srt_loop_nth (section_offset time_offset : Z) (lines : list string) :
  forall previous out,
    srt_loop section_offset time_offset previous [] lines = Ok out ->
    List.length out = List.length lines
    /\ forall i line,
         nth_error lines i = Some line ->
         exists state line' state',
           srt_line section_offset time_offset state line
           = Ok (line', state')
           /\ nth_error out i = Some line'.
Proof.
  induction lines as [|line0 rest IH]; intros previous out.
  - intros [= <-]. split; [reflexivity|]. now intros [|i] line.
  - rewrite srt_loop_cons.
    destruct (srt_line section_offset time_offset previous line0)
      as [[line0' previous']|e] eqn:H0; cbn [bind]; [|discriminate].
    destruct (srt_loop section_offset time_offset previous' [] rest)
      as [out'|e] eqn:Hrest; cbn [bind]; [|discriminate].
    intros [= <-]. destruct (IH _ _ Hrest) as (Hlen & Hnth).
    split; [cbn [List.length]; now rewrite Hlen|].
    intros [|i] line; cbn [nth_error].
    + intros [= <-]. eauto.
    + apply Hnth.
Qed.





(** From a previous number of 1 or more on, the section lines are numbered
    one after the other, whatever they hold. *)
Lemma srt_loop_counts (section_offset time_offset : Z) (lines : list string) :
  Forall (fun line => classify line <> Malformed) lines ->
  forall p, 1 <= p ->
  exists out,
    srt_loop section_offset time_offset (Some p) [] lines = Ok out
    /\ forall i line n,
         nth_error lines i = Some line ->
         classify line = SectionNumber n ->
         nth_error out i
         = Some (section_line
                   (p + 1
                    + Z.of_nat (List.length (section_numbers (firstn i lines))))).
Proof.
  induction 1 as [|line0 rest Hline0 _ IH]; intros p Hp.
  - exists []. split; [reflexivity|]. now intros [|i] line n.
  - rewrite srt_loop_cons.
    destruct (classify line0) as [g|n0| |] eqn:Hc; [| |congruence|].
    + destruct (srt_line_time section_offset time_offset (Some p) _ _ Hc)
        as (line0' & ->).
      cbn [bind]. destruct (IH p Hp) as (out & -> & Hout).
      exists (line0' :: out). split; [reflexivity|].
      intros [|i] line n; cbn [nth_error firstn].
      * intros [= <-]. congruence.
      * rewrite section_numbers_cons, Hc. apply Hout.
    + rewrite (srt_line_section _ _ _ _ n0 Hc), repair_nonzero by lia.
      cbn [bind]. destruct (IH (p + 1) ltac:(lia)) as (out & -> & Hout).
      exists (section_line (p + 1) :: out). split; [reflexivity|].
      intros [|i] line n; cbn [nth_error firstn].
      * intros _ _. cbn [section_numbers flat_map List.length].
        now rewrite Z.add_0_r.
      * intros Hi Hn. rewrite (Hout i line n Hi Hn).
        rewrite section_numbers_cons, Hc. cbn [List.app List.length].
        do 2 f_equal. lia.
    + rewrite srt_line_plain by assumption.
      cbn [bind]. destruct (IH p Hp) as (out & -> & Hout).
      exists (line0 :: out). split; [reflexivity|].
      intros [|i] line n; cbn [nth_error firstn].
      * intros [= <-]. congruence.
      * rewrite section_numbers_cons, Hc. apply Hout.
Qed.

Lemma srt_loop_counts_from_start
  (section_offset time_offset : Z) (lines : list string) :
  Forall (fun line => classify line <> Malformed) lines ->
  forall first others,
    section_numbers lines = first :: others ->
    1 <= first + section_offset ->
    exists out,
      srt_loop section_offset time_offset None [] lines = Ok out
      /\ forall i line n,
           nth_error lines i = Some line ->
           classify line = SectionNumber n ->
           nth_error out i
           = Some (section_line
                     (first + section_offset
                      + Z.of_nat
                          (List.length (section_numbers (firstn i lines))))).
Proof.
  induction 1 as [|line0 rest Hline0 Hrest IH]; intros first others Hnums Hpos.
  - discriminate.
  - rewrite section_numbers_cons in Hnums. rewrite srt_loop_cons.
    destruct (classify line0) as [g|n0| |] eqn:Hc; [| |congruence|].
    + destruct (srt_line_time section_offset time_offset None _ _ Hc)
        as (line0' & ->).
      cbn [bind]. destruct (IH _ _ Hnums Hpos) as (out & -> & Hout).
      exists (line0' :: out). split; [reflexivity|].
      intros [|i] line n; cbn [nth_error firstn].
      * intros [= <-]. congruence.
      * rewrite section_numbers_cons, Hc. apply Hout.
    + injection Hnums as -> _.
      rewrite (srt_line_section _ _ _ _ first Hc). cbn [repair bind].
      destruct (srt_loop_counts section_offset time_offset rest Hrest
                  (first + section_offset) Hpos) as (out & -> & Hout).
      exists (section_line (first + section_offset) :: out).
      split; [reflexivity|].
      intros [|i] line n; cbn [nth_error firstn].
      * intros _ _. cbn [section_numbers flat_map List.length].
        now rewrite Z.add_0_r.
      * intros Hi Hn. rewrite (Hout i line n Hi Hn).
        rewrite section_numbers_cons, Hc. cbn [List.app List.length].
        do 2 f_equal. lia.
    + rewrite srt_line_plain by assumption.
      cbn [bind]. destruct (IH _ _ Hnums Hpos) as (out & -> & Hout).
      exists (line0 :: out). split; [reflexivity|].
      intros [|i] line n; cbn [nth_error firstn].
      * intros [= <-]. congruence.
      * rewrite section_numbers_cons, Hc. apply Hout.
Qed.



Lemma digit_field_numeral (width : nat) (d : string) :
  digit_field (S width) d -> numeral d.
Proof.
  intros [Hl Hd]. split; [|assumption]. now destruct d.
Qed.

Lemma SRT_PATTERN_stamp (hh mm ss mmm rest : string) :
  digit_field 2 hh -> digit_field 2 mm -> digit_field 2 ss ->
  digit_field 3 mmm ->
  SRT_PATTERN (stamp hh mm ss mmm ++ rest) = Some ([hh; mm; ss; mmm], rest).
Proof.
  intros [? ?] [? ?] [? ?] [? ?].
  unfold SRT_PATTERN, stamp. rewrite !app_assoc.
  run_pattern. reflexivity.
Qed.

(** A line that begins with a time range is rewritten from its eight
    numbers, in any state of the loop. *)
Lemma srt_line_range (section_offset time_offset : Z) (previous : option Z)
  (h1 m1 s1 ms1 h2 m2 s2 ms2 tail : string) :
  digit_field 2 h1 -> digit_field 2 m1 -> digit_field 2 s1 ->
  digit_field 3 ms1 ->
  digit_field 2 h2 -> digit_field 2 m2 -> digit_field 2 s2 ->
  digit_field 3 ms2 ->
  srt_line section_offset time_offset previous
    (stamp h1 m1 s1 ms1 ++ " --> " ++ stamp h2 m2 s2 ms2 ++ tail)
  = Ok (add_time (decimal_value 0 h1) (decimal_value 0 m1)
          (decimal_value 0 s1) (decimal_value 0 ms1) time_offset
        ++ " --> "
        ++ add_time (decimal_value 0 h2) (decimal_value 0 m2)
             (decimal_value 0 s2) (decimal_value 0 ms2) time_offset
        ++ CRLF, previous).
Proof.
  intros F1 F2 F3 F4 F5 F6 F7 F8.
  unfold srt_line, Re.match_, time_prog, Re.seq.
  rewrite SRT_PATTERN_stamp by assumption. cbv beta iota.
  rewrite lit_app. cbv beta iota.
  rewrite SRT_PATTERN_stamp by assumption.
  cbn [Re.group nth Nat.sub List.app].
  rewrite !int_numeral by (eapply digit_field_numeral; eassumption).
  reflexivity.
Qed.



(** *** Section lines with blanks and leading zeros *)

Lemma int_space_isspace (c : ascii) : int_space c = true -> isspace c = true.
Proof.
  unfold int_space, isspace. intros H. zbool.
Qed.

Lemma strip_with_pad (p : ascii -> bool) (w1 s w2 : string) :
  str_all p w1 = true -> str_all (fun c => negb (p c)) s = true ->
  str_all p w2 = true ->
  strip_with p (w1 ++ s ++ w2) = s.
Proof.
  intros H1 Hs H2. unfold strip_with. rewrite lstrip_all by assumption.
  now apply strip_with_app.
Qed.

Lemma int_padded (w1 d w2 : string) :
  str_all int_space w1 = true -> numeral d -> str_all int_space w2 = true ->
  int (w1 ++ d ++ w2) = Ok (decimal_value 0 d).
Proof.
  intros H1 [Hne Hd] H2. unfold int.
  rewrite strip_with_pad;
    [|assumption
     |now apply (str_all_none isdecimal), Hd; apply isdecimal_not_int_space
     |assumption].
  destruct d as [|c r]; [congruence|].
  pose proof Hd as Hd'. cbn [str_all] in Hd'.
  apply andb_true_iff in Hd' as [Hc _].
  rewrite (isdecimal_neq c "-"), (isdecimal_neq c "+")
    by (assumption || reflexivity).
  now rewrite int_digits_decimal_start.
Qed.

Lemma classify_padded (w1 d w2 : string) :
  str_all int_space w1 = true -> numeral d -> str_all int_space w2 = true ->
  classify (w1 ++ d ++ w2) = SectionNumber (decimal_value 0 d).
Proof.
  intros H1 Hd H2. pose proof Hd as [Hne Hdec]. unfold classify.
  destruct (Re.match_ time_prog (w1 ++ d ++ w2)) as [g|] eqn:Hm.
  - apply time_prog_colon in Hm. rewrite !str_all_app in Hm.
    assert (Hw : forall w, str_all int_space w = true ->
                           str_all (fun c => negb (Ascii.eqb c ":")) w = true).
    { intros w. apply str_all_impl. intros c Hc.
      destruct (Ascii.eqb_spec c ":") as [->|]; [discriminate|reflexivity]. }
    rewrite (Hw w1 H1), (Hw w2 H2), (str_all_impl isdecimal) in Hm;
      [discriminate| |assumption].
    intros c Hc. now rewrite (isdecimal_neq c ":").
  - unfold strip. rewrite strip_with_pad;
      [|revert H1; apply str_all_impl, int_space_isspace
       |now apply (str_all_none isdecimal), Hdec; apply isdecimal_not_isspace
       |revert H2; apply str_all_impl, int_space_isspace].
    assert (isdigit d = true) as ->.
    { unfold isdigit. destruct d; [congruence|].
      revert Hdec. apply str_all_impl, isdecimal_isdigit_char. }
    now rewrite int_padded.
Qed.



(** *** Running the program on its own output *)

Lemma decimal_value_nonneg (s : string) (acc : Z) :
  str_all isdecimal s = true -> 0 <= acc -> 0 <= decimal_value acc s.
Proof.
  revert acc. induction s as [|c s IH]; cbn [decimal_value str_all];
    intros acc H Hacc; [lia|].
  apply andb_true_iff in H as [Hc Hs].
  apply IH; [assumption|]. pose proof (digit_value_range _ Hc). lia.
Qed.

Lemma int_digits_nonneg (s : string) (acc : Z) (after_digit : bool) (v : Z) :
  int_digits acc after_digit s = Some v -> 0 <= acc -> 0 <= v.
Proof.
  revert acc after_digit. induction s as [|c s IH]; intros acc after_digit;
    cbn [int_digits].
  - destruct after_digit; [|discriminate]. intros [= <-]. auto.
  - destruct (isdecimal c) eqn:Hc.
    + intros H Hacc. apply (IH _ _ H).
      pose proof (digit_value_range _ Hc). lia.
    + destruct (Ascii.eqb c "_" && after_digit); [|discriminate].
      intros H Hacc. now apply (IH _ _ H).
Qed.

Lemma lstrip_within (p q : ascii -> bool) (s : string) :
  str_all q s = true -> str_all q (lstrip p s) = true.
Proof.
  induction s as [|c s IH]; cbn [lstrip]; [auto|].
  intros H. destruct (p c); [|assumption].
  cbn [str_all] in H. apply andb_true_iff in H as [_ H]. auto.
Qed.

Lemma rstrip_within (p q : ascii -> bool) (s : string) :
  str_all q s = true -> str_all q (rstrip p s) = true.
Proof.
  induction s as [|c s IH]; cbn [rstrip str_all]; [auto|].
  intros [Hc Hs]%andb_true_iff. specialize (IH Hs).
  destruct (rstrip p s).
  - destruct (p c); cbn [str_all]; [reflexivity|now rewrite Hc].
  - cbn [str_all] in *. now rewrite Hc, IH.
Qed.

Lemma lstrip_around (p q : ascii -> bool) (s : string) :
  str_all q (lstrip p s) = true -> str_all (fun c => p c || q c) s = true.
Proof.
  induction s as [|c s IH]; cbn [lstrip]; [auto|].
  destruct (p c) eqn:Hc.
  - intros H. cbn [str_all]. rewrite Hc. cbn [orb andb]. auto.
  - apply str_all_impl. intros a Ha. rewrite Ha. apply orb_true_r.
Qed.

Lemma rstrip_around (p q : ascii -> bool) (s : string) :
  str_all q (rstrip p s) = true -> str_all (fun c => p c || q c) s = true.
Proof.
  induction s as [|c s IH]; cbn [rstrip]; [auto|].
  destruct (rstrip p s) as [|c' r'].
  - destruct (p c) eqn:Hc; cbn [str_all]; rewrite Hc; cbn [orb andb].
    + intros _. now apply IH.
    + intros H. rewrite andb_true_r in H. rewrite H. now apply IH.
  - cbn [str_all]. intros [Hc H]%andb_true_iff.
    rewrite Hc, orb_true_r. cbn [andb]. apply IH. exact H.
Qed.

(** The characters of a line the digit test lets through are blanks and
    digits. *)
Lemma isdigit_strip_chars (line : string) :
  isdigit (strip line) = true ->
  str_all (fun c => isspace c || (isspace c || isdigit_char c)) line = true.
Proof.
  intros H. apply lstrip_around, rstrip_around.
  unfold isdigit, strip, strip_with in H.
  destruct (rstrip isspace (lstrip isspace line)); [discriminate|exact H].
Qed.

Lemma section_number_nonneg (line : string) (n : Z) :
  classify line = SectionNumber n -> 0 <= n.
Proof.
  unfold classify.
  destruct (Re.match_ time_prog line); [discriminate|].
  destruct (isdigit (strip line)) eqn:Hd; [|discriminate].
  destruct (int line) as [n'|] eqn:Hint; [|discriminate].
  intros [= <-]. apply isdigit_strip_chars in Hd.
  unfold int, strip_with in Hint.
  apply (lstrip_within int_space), (rstrip_within int_space) in Hd.
  destruct (rstrip int_space (lstrip int_space line)) as [|c r].
  - discriminate.
  - cbn [str_all] in Hd. apply andb_true_iff in Hd as [Hc _].
    destruct (Ascii.eqb_spec c "-") as [->|]; [discriminate|].
    destruct (Ascii.eqb_spec c "+") as [->|]; [discriminate|].
    destruct (int_digits 0 false (String c r)) as [v|] eqn:Hv; [|discriminate].
    injection Hint as <-. apply (int_digits_nonneg _ _ _ _ Hv). lia.
Qed.

Lemma repair_again (previous : option Z) (n : Z) :
  repair previous (repair previous n) = repair previous n.
Proof.
  unfold repair. destruct previous as [p|]; [|reflexivity].
  destruct (truthy (Some p)); cbn [andb]; [|reflexivity].
  destruct (Z.eqb_spec n (p + 1)) as [->|]; cbn [negb].
  - now rewrite Z.eqb_refl.
  - now rewrite Z.eqb_refl.
Qed.

Lemma repair_nonneg (previous : option Z) (n : Z) :
  (forall p, previous = Some p -> 0 <= p) -> 0 <= n ->
  0 <= repair previous n.
Proof.
  intros Hp Hn. unfold repair. destruct previous as [p|]; [|assumption].
  specialize (Hp p eq_refl).
  destruct (truthy (Some p) && negb (n =? p + 1)); lia.
Qed.

(** A time range written with hours of three digits on either side is an
    ordinary line for the program. *)
Lemma classify_long_hours (h m s ms h' m' s' ms' : Z) :
  0 <= h -> canonical 0 m s ms -> 0 <= h' -> canonical 0 m' s' ms' ->
  100 <= h \/ 100 <= h' ->
  classify (time_line h m s ms h' m' s' ms') = Plain.
Proof.
  intros Hh Hc Hh' Hc' Hlong. unfold classify.
  assert (Hno : Re.match_ time_prog (time_line h m s ms h' m' s' ms') = None).
  { unfold Re.match_, time_prog, time_line, Re.seq.
    destruct (Z.lt_ge_cases h 100) as [Hlt|Hge].
    - rewrite SRT_PATTERN_TEMPLATE
        by (unfold canonical in *; repeat split; lia).
      cbv beta iota. rewrite lit_app. cbv beta iota.
      rewrite SRT_PATTERN_out_of_range by (right; lia). reflexivity.
    - rewrite SRT_PATTERN_out_of_range by (right; lia). reflexivity. }
  rewrite Hno.
  destruct (isdigit (strip (time_line h m s ms h' m' s' ms'))) eqn:Hd;
    [|reflexivity].
  apply isdigit_strip_chars in Hd. unfold time_line, SRT_TEMPLATE in Hd.
  rewrite !str_all_app in Hd. cbn [str_all] in Hd.
  apply andb_true_iff in Hd as [Hd _]. apply andb_true_iff in Hd as [_ Hd].
  apply andb_true_iff in Hd as [Hd _]. vm_compute in Hd. discriminate Hd.
Qed.

Lemma srt_line_time_fields (section_offset time_offset : Z)
  (previous : option Z) (line : string) (g : list string) :
  classify line = TimeRange g ->
  exists h m s ms h' m' s' ms',
    (0 <= h /\ 0 <= m /\ 0 <= s /\ 0 <= ms)
    /\ (0 <= h' /\ 0 <= m' /\ 0 <= s' /\ 0 <= ms')
    /\ srt_line section_offset time_offset previous line
       = Ok (add_time h m s ms time_offset ++ " --> "
             ++ add_time h' m' s' ms' time_offset ++ CRLF, previous).
Proof.
  unfold classify, srt_line.
  destruct (Re.match_ time_prog line) as [g'|] eqn:H.
  - intros _. destruct (time_prog_inv _ _ H)
      as (d1 & d2 & d3 & d4 & d5 & d6 & d7 & d8 & -> & Hall).
    repeat match goal with
           | H : Forall _ (_ :: _) |- _ => inversion H; subst; clear H
           end.
    cbn [Re.group nth Nat.sub].
    rewrite !int_numeral by assumption. cbn [bind].
    do 8 eexists. split; [|split; [|reflexivity]];
      repeat split; apply decimal_value_nonneg;
      try lia;
      match goal with Hn : numeral ?d |- str_all _ ?d = true => apply Hn end.
  - destruct (isdigit (strip line)); [|discriminate].
    destruct (int line); discriminate.
Qed.

(** With both offsets zero, a line the program wrote is written again as
    it is, and the loop is in the same state after it. *)
Lemma srt_line_again (previous : option Z) (line line' : string)
  (previous' : option Z) :
  (forall p, previous = Some p -> 0 <= p) ->
  srt_line 0 0 previous line = Ok (line', previous') ->
  srt_line 0 0 previous line' = Ok (line', previous')
  /\ (forall p, previous' = Some p -> 0 <= p).
Proof.
  intros Hprev Hline.
  destruct (classify line) as [g|n| |] eqn:Hc.
  - destruct (srt_line_time_fields 0 0 previous _ _ Hc)
      as (h & m & s & ms & h' & m' & s' & ms' & Hs & He & Heq).
    rewrite Heq in Hline. injection Hline as <- <-. split; [|assumption].
    unfold add_time.
    pose proof (shifted_hours h m s ms 0) as H1.
    pose proof (shifted_hours h' m' s' ms' 0) as H2.
    pose proof (add_time_fields_spec h m s ms 0) as T1.
    pose proof (add_time_fields_spec h' m' s' ms' 0) as T2.
    destruct (add_time_fields h m s ms 0) as [[[a1 a2] a3] a4].
    destruct (add_time_fields h' m' s' ms' 0) as [[[b1 b2] b3] b4].
    unfold total_millis in *.
    change (SRT_TEMPLATE a1 a2 a3 a4 ++ " --> "
            ++ SRT_TEMPLATE b1 b2 b3 b4 ++ CRLF)
      with (time_line a1 a2 a3 a4 b1 b2 b3 b4).
    assert (0 <= a1) by lia. assert (0 <= b1) by lia.
    destruct (Z.lt_ge_cases a1 100); [destruct (Z.lt_ge_cases b1 100)|].
    + apply srt_line_time_line; unfold canonical; repeat split; lia.
    + apply srt_line_plain, classify_long_hours;
        unfold canonical; repeat split; lia.
    + apply srt_line_plain, classify_long_hours;
        unfold canonical; repeat split; lia.
  - pose proof (section_number_nonneg _ _ Hc) as Hn.
    rewrite (srt_line_section 0 0 previous _ n Hc), Z.add_0_r in Hline.
    injection Hline as <- <-.
    pose proof (repair_nonneg previous n Hprev Hn) as Hv.
    split; [|now intros p [= <-]].
    rewrite (srt_line_section 0 0 previous _ _
               (classify_section_line _ Hv)).
    now rewrite Z.add_0_r, repair_again.
  - rewrite srt_line_malformed in Hline by assumption. discriminate.
  - rewrite srt_line_plain in Hline by assumption.
    injection Hline as <- <-. split; [|assumption].
    now apply srt_line_plain.
Qed.

Lemma srt_loop_again (lines : list string) :
  forall previous out,
    (forall p, previous = Some p -> 0 <= p) ->
    srt_loop 0 0 previous [] lines = Ok out ->
    srt_loop 0 0 previous [] out = Ok out.
Proof.
  induction lines as [|line rest IH]; intros previous out Hprev.
  - now intros [= <-].
  - rewrite srt_loop_cons.
    destruct (srt_line 0 0 previous line) as [[line' previous']|e] eqn:Hline;
      cbn [bind]; [|discriminate].
    destruct (srt_loop 0 0 previous' [] rest) as [out'|e] eqn:Hrest;
      cbn [bind]; [|discriminate].
    intros [= <-].
    destruct (srt_line_again _ _ _ _ Hprev Hline) as (Hagain & Hprev').
    rewrite srt_loop_cons, Hagain. cbn [bind].
    now rewrite (IH _ _ Hprev' Hrest).
Qed.



(* ------------------------------------------------------------------ *)
(** ** The entry point: where [main] writes and which rewriter it runs *)

Module PathFacts.
Import PyText OsPath.

Lemma length_app (s t : string) :
  String.length (s ++ t) = (String.length s + String.length t)%nat.
Proof.
  induction s; simpl; congruence.
Qed.

Lemma take_drop (k : nat) (s : string) : take k s ++ drop k s = s.
Proof.
  revert s. induction k as [|k IH]; intros [|c s]; cbn [take drop append];
    try reflexivity.
  now rewrite IH.
Qed.

Lemma take_app_length (s t : string) : take (String.length s) (s ++ t) = s.
Proof.
  induction s as [|c s IH]; cbn [String.length append take].
  - now destruct t.
  - now rewrite IH.
Qed.

Lemma drop_app_length (s t : string) : drop (String.length s) (s ++ t) = t.
Proof.
  induction s as [|c s IH]; cbn [String.length append drop]; auto.
Qed.

Lemma drop_app (k : nat) (s t : string) :
  (k <= String.length s)%nat -> drop k (s ++ t) = drop k s ++ t.
Proof.
  revert s. induction k as [|k IH]; intros [|c s] Hk;
    cbn [drop append String.length] in *; try reflexivity; try lia.
  apply IH. lia.
Qed.

Lemma length_drop (k : nat) (s : string) :
  String.length (drop k s) = (String.length s - k)%nat.
Proof.
  revert s. induction k as [|k IH]; intros [|c s];
    cbn [drop String.length]; auto.
Qed.

Lemma rfind_bounds (c : ascii) (s : string) :
  -1 <= rfind c s < Z.of_nat (String.length s).
Proof.
  induction s as [|a s IH]; cbn [rfind String.length]; [lia|].
  rewrite Nat2Z.inj_succ.
  destruct (Z.leb_spec 0 (rfind c s)); [lia|].
  destruct (Ascii.eqb a c); lia.
Qed.

Lemma rfind_absent (c : ascii) (s : string) :
  Py.str_all (other_than c) s = true -> rfind c s = -1.
Proof.
  induction s as [|a s IH]; cbn [rfind Py.str_all]; [reflexivity|].
  intros [Ha Hs]%andb_true_iff. rewrite (IH Hs).
  unfold other_than in Ha. apply negb_true_iff in Ha. now rewrite Ha.
Qed.

Lemma rfind_app_absent (c : ascii) (s e : string) :
  Py.str_all (other_than c) e = true -> rfind c (s ++ e) = rfind c s.
Proof.
  intros He. induction s as [|a s IH]; cbn [rfind append].
  - now apply rfind_absent.
  - now rewrite IH.
Qed.

Lemma rfind_app_head (c : ascii) (s e : string) :
  Py.str_all (other_than c) e = true ->
  rfind c (s ++ String c e) = Z.of_nat (String.length s).
Proof.
  intros He. induction s as [|a s IH]; cbn [rfind append String.length].
  - rewrite (rfind_absent _ _ He), Ascii.eqb_refl. reflexivity.
  - rewrite IH, Nat2Z.inj_succ.
    destruct (Z.leb_spec 0 (Z.of_nat (String.length s))); lia.
Qed.

(** What [splitext] returns puts the path together again. *)
Lemma splitext_join (p : string) :
  fst (splitext p) ++ snd (splitext p) = p.
Proof.
  unfold splitext.
  destruct (rfind "/" p <? rfind "." p); [|apply PyFacts.app_empty_r].
  destruct (Py.str_all is_dot _); [apply PyFacts.app_empty_r|].
  apply take_drop.
Qed.

(** The extension of a name that has some character other than a dot
    before its last dot. *)
Lemma splitext_ext (stem e : string) :
  Py.str_all is_dot (basename stem) = false -> plain_name e ->
  splitext (stem ++ String "." e) = (stem, String "." e).
Proof.
  intros Hbase [Hdot Hslash]. unfold splitext.
  rewrite (rfind_app_absent "/") by (cbn [Py.str_all]; now rewrite Hslash).
  rewrite (rfind_app_head ".") by assumption.
  pose proof (rfind_bounds "/" stem) as Hb.
  destruct (Z.ltb_spec (rfind "/" stem) (Z.of_nat (String.length stem)));
    [|lia].
  unfold slice, basename in *.
  set (k := Z.to_nat (rfind "/" stem + 1)) in *.
  rewrite drop_app by lia.
  replace (Z.to_nat (Z.of_nat (String.length stem) - (rfind "/" stem + 1)))
    with (String.length (drop k stem)) by (rewrite length_drop; lia).
  rewrite take_app_length, Hbase, Nat2Z.id.
  now rewrite take_app_length, drop_app_length.
Qed.

Lemma repeat_char_snoc (c : ascii) (k : nat) :
  Py.repeat_char c (S k) = Py.repeat_char c k ++ String c "".
Proof.
  induction k as [|k IH]; [reflexivity|].
  cbn [Py.repeat_char append] in *. now rewrite <- IH.
Qed.

Lemma str_all_repeat_char (p : ascii -> bool) (c : ascii) (k : nat) :
  p c = true -> Py.str_all p (Py.repeat_char c k) = true.
Proof.
  intros Hc. induction k; cbn [Py.repeat_char Py.str_all];
    [reflexivity|]. now rewrite Hc, IHk.
Qed.

Lemma length_repeat_char (c : ascii) (k : nat) :
  String.length (Py.repeat_char c k) = k.
Proof.
  induction k; cbn [Py.repeat_char String.length]; congruence.
Qed.

(** A name made of leading dots and a text without dot has no extension,
    in the working directory or under a directory. *)
Lemma splitext_dots (dir : string) (k : nat) (name : string) :
  dir = "" \/ (exists d, dir = d ++ "/") -> plain_name name ->
  splitext (dir ++ Py.repeat_char "." k ++ name)
  = (dir ++ Py.repeat_char "." k ++ name, "").
Proof.
  intros Hdir [Hdot Hslash]. unfold splitext.
  assert (Hrest : Py.str_all (other_than "/") (Py.repeat_char "." k ++ name)
                  = true)
    by (rewrite PyFacts.str_all_app, Hslash, str_all_repeat_char; reflexivity).
  assert (Hsep : rfind "/" (dir ++ Py.repeat_char "." k ++ name)
                 = Z.of_nat (String.length dir) - 1).
  { destruct Hdir as [->|(d & ->)].
    - cbn [append String.length]. now apply rfind_absent.
    - rewrite PyFacts.app_assoc. cbn [append].
      rewrite rfind_app_head, length_app by assumption.
      cbn [String.length]. lia. }
  rewrite Hsep. clear Hsep.
  destruct k as [|k].
  - cbn [Py.repeat_char append].
    rewrite (rfind_app_absent ".") by assumption.
    destruct (Z.ltb_spec (Z.of_nat (String.length dir) - 1) (rfind "." dir));
      [|reflexivity].
    exfalso. destruct Hdir as [->|(d & ->)].
    + cbn [rfind String.length] in *. lia.
    + rewrite (rfind_app_absent ".") in * by reflexivity.
      pose proof (rfind_bounds "." d). rewrite length_app in *.
      cbn [String.length] in *. lia.
  - set (p := dir ++ Py.repeat_char "." (S k) ++ name).
    assert (Hp : p = (dir ++ Py.repeat_char "." k) ++ String "." name)
      by (unfold p; rewrite repeat_char_snoc, !PyFacts.app_assoc;
          reflexivity).
    assert (Hd : rfind "." p = Z.of_nat (String.length dir + k))
      by (rewrite Hp, rfind_app_head, length_app, length_repeat_char;
          [reflexivity|assumption]).
    rewrite Hd.
    destruct (Z.ltb_spec (Z.of_nat (String.length dir) - 1)
                (Z.of_nat (String.length dir + k))); [|lia].
    unfold slice.
    replace (Z.to_nat (Z.of_nat (String.length dir) - 1 + 1))
      with (String.length dir) by lia.
    replace (Z.to_nat (Z.of_nat (String.length dir + k)
                       - (Z.of_nat (String.length dir) - 1 + 1)))
      with (String.length (Py.repeat_char "." k))
      by (rewrite length_repeat_char; lia).
    rewrite Hp at 1. rewrite PyFacts.app_assoc, drop_app_length.
    rewrite take_app_length, str_all_repeat_char by reflexivity.
    reflexivity.
Qed.

End PathFacts.

Module MainFacts.
Import PyText OsPath PathFacts.

Lemma lower_char_keeps (c d : ascii) :
  lower_char d = d -> lower_char c <> d -> c <> d.
Proof.
  intros Hd Hc ->. contradiction.
Qed.

Lemma lower_char_dot (c : ascii) : lower_char c = "."%char -> c = "."%char.
Proof.
  unfold lower_char.
  destruct ((65 <=? ord c) && (ord c <=? 90)
            || (192 <=? ord c) && (ord c <=? 222) && negb (ord c =? 215))
    eqn:Hup; [|auto].
  intros H. apply (f_equal ord) in H.
  pose proof (ord_range c).
  rewrite ord_chr in H by lia. change (ord ".") with 46 in H.
  exfalso. zbool.
Qed.

(** A text whose lower case is [.smi] is a dot and three letters. *)
Lemma lower_smi (ext : string) :
  lower ext = ".smi" -> exists e, ext = String "." e /\ plain_name e.
Proof.
  destruct ext as [|c0 [|c1 [|c2 [|c3 [|c4 ext]]]]]; try discriminate.
  cbn [lower]. intros [= H0 H1 H2 H3].
  apply lower_char_dot in H0 as ->.
  exists (String c1 (String c2 (String c3 ""))). split; [reflexivity|].
  unfold plain_name, other_than. cbn [str_all].
  assert (Hne : forall c x d,
             lower_char c = x -> lower_char d = d -> x <> d ->
             negb (Ascii.eqb c d) = true).
  { intros c x d Hc Hd Hx. apply negb_true_iff, Ascii.eqb_neq.
    intros ->. congruence. }
  rewrite !(Hne _ _ "."%char H1), !(Hne _ _ "."%char H2),
    !(Hne _ _ "."%char H3), !(Hne _ _ "/"%char H1), !(Hne _ _ "/"%char H2),
    !(Hne _ _ "/"%char H3) by (reflexivity || discriminate).
  split; reflexivity.
Qed.

Lemma main_read (ARGS : Args) (read_file : string -> option (list string))
  (contents : list string) :
  read_file (input_file ARGS) = Some contents ->
  main ARGS read_file
  = match (if is_smi (input_file ARGS)
           then process_smi contents (millis ARGS)
           else process_srt contents (section ARGS) (millis ARGS)) with
    | Ok out =>
        Written (chosen_output ARGS (default_output (input_file ARGS))) out
    | Raise e => Uncaught e
    end.
Proof.
  intros Hread. unfold main, is_smi, chosen_output, default_output.
  rewrite Hread.
  destruct (splitext (input_file ARGS)) as [filename extension].
  cbn [fst snd].
  destruct (if (lower extension =? ".smi")%string
            then process_smi contents (millis ARGS)
            else process_srt contents (section ARGS) (millis ARGS));
    [|reflexivity].
  destruct (output_file ARGS); reflexivity.
Qed.

End MainFacts.

Import PyText OsPath PathFacts MainFacts.









(* ------------------------------------------------------------------ *)
(** ** Runs one after the other *)


Lemma add_time_twice (h m s ms a b : Z) :
  (let '(h1, m1, s1, ms1) := add_time_fields h m s ms a in
   add_time h1 m1 s1 ms1 b)
  = add_time h m s ms (a + b).
Proof.
  pose proof (shift_shift (h, m, s, ms) a b) as H.
  unfold add_time, shift in *.
  destruct (add_time_fields h m s ms a) as [[[h1 m1] s1] ms1].
  cbv beta iota in H |- *. now rewrite H.
Qed.

(** A canonical time range is rewritten from its fields, with any offset. *)
Lemma srt_line_time_line_shift (section_offset time_offset : Z)
  (previous : option Z) (h m s ms h' m' s' ms' : Z) :
  canonical h m s ms -> canonical h' m' s' ms' ->
  srt_line section_offset time_offset previous
    (time_line h m s ms h' m' s' ms')
  = Ok (add_time h m s ms time_offset ++ " --> "
        ++ add_time h' m' s' ms' time_offset ++ CRLF, previous).
Proof.
  intros Hc Hc'. pose proof Hc as (Hh & Hm & Hs & Hms).
  pose proof Hc' as (Hh' & Hm' & Hs' & Hms').
  unfold srt_line, Re.match_, time_prog, time_line, Re.seq.
  rewrite SRT_PATTERN_TEMPLATE by assumption. cbv beta iota.
  rewrite lit_app. cbv beta iota.
  rewrite SRT_PATTERN_TEMPLATE by assumption.
  cbn [Re.group nth Nat.sub List.app].
  destruct (field2 h Hh) as (_ & _ & ->),
    (field2 m ltac:(lia)) as (_ & _ & ->),
    (field2 s ltac:(lia)) as (_ & _ & ->), (field3 ms Hms) as (_ & _ & ->),
    (field2 h' Hh') as (_ & _ & ->),
    (field2 m' ltac:(lia)) as (_ & _ & ->),
    (field2 s' ltac:(lia)) as (_ & _ & ->), (field3 ms' Hms') as (_ & _ & ->).
  reflexivity.
Qed.

(** The text [add_time] returns for a readable total is that of a
    canonical timestamp. *)
Lemma add_time_canonical (h m s ms offset : Z) :
  readable_total (total_millis h m s ms + offset) ->
  let '(h1, m1, s1, ms1) := add_time_fields h m s ms offset in
  canonical h1 m1 s1 ms1
  /\ add_time h m s ms offset = SRT_TEMPLATE h1 m1 s1 ms1.
Proof.
  intros Hr. unfold add_time.
  pose proof (shifted_hours h m s ms offset) as H.
  destruct (add_time_fields h m s ms offset) as [[[h1 m1] s1] ms1].
  destruct H as ((Hm & Hs & Hms) & Hh & _).
  split; [|reflexivity]. unfold canonical. auto.
Qed.

Lemma srt_line_time_values (section_offset time_offset : Z)
  (previous : option Z) (line : string) (g : list string) :
  classify line = TimeRange g ->
  exists h m s ms h' m' s' ms',
    range_totals line
    = Some (total_millis h m s ms, total_millis h' m' s' ms')
    /\ forall offset,
         srt_line section_offset offset previous line
         = Ok (add_time h m s ms offset ++ " --> "
               ++ add_time h' m' s' ms' offset ++ CRLF, previous).
Proof.
  unfold classify, srt_line, range_totals.
  destruct (Re.match_ time_prog line) as [g'|] eqn:H.
  - intros _. destruct (time_prog_inv _ _ H)
      as (d1 & d2 & d3 & d4 & d5 & d6 & d7 & d8 & -> & Hall).
    repeat match goal with
           | H : Forall _ (_ :: _) |- _ => inversion H; subst; clear H
           end.
    cbn [Re.group nth Nat.sub].
    do 8 eexists. split; [reflexivity|]. intros offset.
    rewrite !int_numeral by assumption. reflexivity.
  - destruct (isdigit (strip line)); [|discriminate].
    destruct (int line); discriminate.
Qed.

Lemma srt_line_twice (a b : Z) (previous : option Z) (line line' : string)
  (previous' : option Z) :
  (forall p, previous = Some p -> 0 <= p) ->
  (forall ts te, range_totals line = Some (ts, te) ->
                 readable_total (ts + a) /\ readable_total (te + a)) ->
  srt_line 0 a previous line = Ok (line', previous') ->
  srt_line 0 b previous line' = srt_line 0 (a + b) previous line
  /\ (forall p, previous' = Some p -> 0 <= p).
Proof.
  intros Hprev Hrange Hline.
  destruct (classify line) as [g|n| |] eqn:Hc.
  - destruct (srt_line_time_values 0 a previous _ _ Hc)
      as (h & m & s & ms & h' & m' & s' & ms' & Htot & Heq).
    rewrite Heq in Hline. injection Hline as <- <-. split; [|assumption].
    destruct (Hrange _ _ Htot) as (Hs & He).
    pose proof (add_time_canonical h m s ms a Hs) as C1.
    pose proof (add_time_canonical h' m' s' ms' a He) as C2.
    pose proof (add_time_twice h m s ms a b) as T1.
    pose proof (add_time_twice h' m' s' ms' a b) as T2.
    destruct (add_time_fields h m s ms a) as [[[a1 a2] a3] a4].
    destruct (add_time_fields h' m' s' ms' a) as [[[b1 b2] b3] b4].
    destruct C1 as (C1 & ->), C2 as (C2 & ->).
    change (srt_line 0 b previous (time_line a1 a2 a3 a4 b1 b2 b3 b4)
            = srt_line 0 (a + b) previous line).
    rewrite srt_line_time_line_shift by assumption.
    now rewrite Heq, T1, T2.
  - pose proof (section_number_nonneg _ _ Hc) as Hn.
    rewrite (srt_line_section 0 a previous _ n Hc), Z.add_0_r in Hline.
    injection Hline as <- <-.
    pose proof (repair_nonneg previous n Hprev Hn) as Hv.
    split; [|now intros p [= <-]].
    rewrite (srt_line_section 0 b previous _ _ (classify_section_line _ Hv)).
    rewrite (srt_line_section 0 (a + b) previous _ n Hc).
    now rewrite !Z.add_0_r, repair_again.
  - rewrite srt_line_malformed in Hline by assumption. discriminate.
  - rewrite srt_line_plain in Hline by assumption.
    injection Hline as <- <-. split; [|assumption].
    now rewrite !srt_line_plain.
Qed.

Lemma srt_loop_twice (a b : Z) (lines : list string) :
  Forall (fun line =>
            forall ts te, range_totals line = Some (ts, te) ->
                          readable_total (ts + a) /\ readable_total (te + a))
    lines ->
  forall previous between,
    (forall p, previous = Some p -> 0 <= p) ->
    srt_loop 0 a previous [] lines = Ok between ->
    srt_loop 0 b previous [] between = srt_loop 0 (a + b) previous [] lines.
Proof.
  induction 1 as [|line rest Hline _ IH]; intros previous between Hprev.
  - now intros [= <-].
  - rewrite srt_loop_cons.
    destruct (srt_line 0 a previous line) as [[line' previous']|e] eqn:Hl;
      cbn [bind]; [|discriminate].
    destruct (srt_loop 0 a previous' [] rest) as [between'|e] eqn:Hrest;
      cbn [bind]; [|discriminate].
    intros [= <-].
    destruct (srt_line_twice a b _ _ _ _ Hprev Hline Hl) as (Hsame & Hprev').
    rewrite !srt_loop_cons, Hsame.
    (* the run with [a + b] writes another line and reaches the same state *)
    destruct (srt_line 0 (a + b) previous line) as [[line2 previous2]|e]
      eqn:Hl2; cbn [bind]; [|reflexivity].
    assert (previous2 = previous') as ->.
    { destruct (classify line) as [g|n| |] eqn:Hc.
      - destruct (srt_line_time_values 0 a previous _ _ Hc)
          as (? & ? & ? & ? & ? & ? & ? & ? & _ & Heq).
        rewrite Heq in Hl. rewrite Heq in Hl2. congruence.
      - rewrite (srt_line_section 0 a previous _ n Hc) in Hl.
        rewrite (srt_line_section 0 (a + b) previous _ n Hc) in Hl2.
        congruence.
      - rewrite srt_line_malformed in Hl by assumption. discriminate.
      - rewrite srt_line_plain in Hl, Hl2 by assumption. congruence. }
    now rewrite (IH _ _ Hprev' Hrest).
Qed.


